(** * Playlist tracker: snapshot collection and daily accumulation

    A shallow embedding of [app.py]: the pagination fetcher and track
    normalizer of [get_playlist_data], the two CSV-backed history tables
    with [update_daily_stats], and the growth-tracking computation of
    [main].

    Modelling conventions.
    - A pandas [DataFrame] with dynamic columns is a list of column labels
      together with its rows; a row is a finite map from label to cell.
    - [float64] cells are Rocq's primitive binary64 floats, so the
      arithmetic of the growth columns is the arithmetic pandas performs.
    - [int64] cells are integers in [Z]; subtraction of two [numpy.int64]
      scalars wraps, which [wrap64] writes out.
    - The file system holds the two CSV files; code that touches it lives
      in a state-and-exception monad [M].  A file is held as the table,
      with typed cells, that [to_csv] was given, and [read_csv] gives that
      table back.  This is exact for what the theorems follow through a
      file: the labels, the number and order of the records, the dates
      (written as text and parsed back by [parse_dates]) and the integer
      columns.  It idealises text and float cells, whose type pandas infers
      again from the text: a title made of digits is read back as a
      number, a title such as NA as a missing value.  Where a theorem
      is about what a later call reads from a file, it is stated through
      the loaders [load_historical_data] and [load_track_history].
    - [pd.Timestamp.now()] is an explicit argument [now], a number of
      nanoseconds on the local clock.
    - The provider answers a request by the URL alone; the cache of
      [st.cache_data] is left out, so every run performs its requests.
      The loop over the pages takes fuel, and runs out of it when the
      provider never ends the chain of pages. *)

From Stdlib Require Import ZArith List Ascii Floats Uint63.
From stdpp Require Import base option list gmap strings sorting.
Import ListNotations.

Local Open Scope string_scope.
Local Open Scope Z_scope.
Local Open Scope list_scope.

(** ** Cells *)

Inductive value : Type :=
| VTimestamp (ns : Z)      (* datetime64[ns] *)
| VInt (n : Z)             (* int64 *)
| VFloat (x : float)       (* float64 *)
| VStr (s : string)        (* object: str *)
| VNone.                   (* object: None *)

(** The missing-value marker pandas fills in. *)
Definition NaN : value := VFloat nan.

(** Conversion of an int64, a number from [-2^63] to [2^63 - 1], to
    float64: exact below 2^53 in magnitude, rounded to the nearest float
    above.  The primitive conversion takes 63 bits, so the least int64 is
    converted apart. *)
Definition float_of_Z (z : Z) : float :=
  match z with
  | Z0 => 0%float
  | Zpos _ => of_uint63 (Uint63.of_Z z)
  | Zneg _ =>
      if z =? - 2 ^ 63 then (-0x1p63)%float
      else (- of_uint63 (Uint63.of_Z (- z)))%float
  end.

(** Wrap-around of int64 arithmetic. *)
Definition wrap64 (z : Z) : Z := (z + 2 ^ 63) mod 2 ^ 64 - 2 ^ 63.

(** ** Timestamps *)

Definition ns_per_day : Z := 86400 * 1000000000.

(** [Timestamp.normalize()]: the time of day is set to midnight. *)
Definition normalize (ts : Z) : Z := ts - ts mod ns_per_day.

(** ** Data frames *)

Record DataFrame : Type := mkDataFrame {
  columns : list string;
  rows : list (gmap string value)
}.

(** [pd.DataFrame(columns=[...])] *)
Definition DataFrame_empty (cols : list string) : DataFrame :=
  {| columns := cols; rows := [] |}.

(** [len(df)] *)
Definition len (df : DataFrame) : nat := length (rows df).

(** [df.empty]: some axis has length zero. *)
Definition empty (df : DataFrame) : bool :=
  match columns df, rows df with
  | [], _ | _, [] => true
  | _, _ => false
  end.

Definition has_column (c : string) (df : DataFrame) : bool :=
  bool_decide (c ∈ columns df).

(** The cell of row [r] under label [c]; a label the row lacks reads as NaN. *)
Definition cell (c : string) (r : gmap string value) : value :=
  default NaN (r !! c).

(** The timestamp in the [date] cell of a row, if it holds one. *)
Definition date_key (r : gmap string value) : option Z :=
  match cell "date" r with
  | VTimestamp ts => Some ts
  | _ => None
  end.

(** [df.values.tolist()]: the cells of every row, in column order. *)
Definition values (df : DataFrame) : list (list value) :=
  map (fun r => map (fun c => cell c r) (columns df)) (rows df).

(** A row laid out over the labels [cols]. *)
Definition reindex (cols : list string) (r : gmap string value)
  : gmap string value :=
  list_to_map (map (fun c => (c, cell c r)) cols).

(** Union of two label lists, the first list's order first ([sort=False]). *)
Definition union_columns (a b : list string) : list string :=
  a ++ List.filter (fun c => negb (bool_decide (c ∈ a))) b.

(** [pd.concat([a, b], ignore_index=True)]: rows of [a] then rows of [b],
    over the union of the labels, absent cells filled with NaN. *)
Definition concat (a b : DataFrame) : DataFrame :=
  let cols := union_columns (columns a) (columns b) in
  {| columns := cols; rows := map (reindex cols) (rows a ++ rows b) |}.

(** ** Exceptions, outcomes and the file-system monad *)

Inductive Exn : Type :=
| KeyError (key : string)
| ValueError (msg : string)
| ProviderError (msg : string).

Inductive outcome (A : Type) : Type :=
| Return (a : A)
| Raise (e : Exn).
Arguments Return {A} a.
Arguments Raise {A} e.

(** The two files of the working directory ([None]: the file does not
    exist) and the names of the files written so far, latest first. *)
Record FS : Type := mkFS {
  playlist_history_csv : option DataFrame;
  track_popularity_history_csv : option DataFrame;
  written : list string
}.

Definition fresh : FS :=
  {| playlist_history_csv := None;
     track_popularity_history_csv := None;
     written := [] |}.

Definition M (A : Type) : Type := FS -> outcome A * FS.

Definition ret {A} (a : A) : M A := fun fs => (Return a, fs).
Definition raise {A} (e : Exn) : M A := fun fs => (Raise e, fs).
Definition bind {A B} (m : M A) (k : A -> M B) : M B :=
  fun fs =>
    match m fs with
    | (Return a, fs') => k a fs'
    | (Raise e, fs') => (Raise e, fs')
    end.
Definition lift {A} (o : outcome A) : M A := fun fs => (o, fs).

Declare Scope fs_scope.
Delimit Scope fs_scope with fs.
Notation "x <- m ;; k" := (bind m (fun x => k))
  (at level 100, m at next level, right associativity) : fs_scope.
Notation "m ;;; k" := (bind m (fun _ => k))
  (at level 100, right associativity) : fs_scope.
Local Open Scope fs_scope.

(** ** The historical store *)

(** [pd.read_csv(path, parse_dates=['date'])] on the table a file holds:
    a file without a [date] column is rejected.  The table is given back
    with the cells it was saved with; pandas infers the type of every
    column again from the text, which keeps dates and integer columns
    and may change text and float cells. *)
Definition read_csv (file : DataFrame) : outcome DataFrame :=
  if has_column "date" file then Return file
  else Raise (ValueError "Missing column provided to 'parse_dates': 'date'").

Definition playlist_schema : list string :=
  ["date"; "saves"; "total_tracks"; "avg_popularity"].

Definition track_schema : list string :=
  ["date"; "track_id"; "track_name"; "artist"; "popularity"].

Definition load_historical_data : M DataFrame :=
  fun fs =>
    match playlist_history_csv fs with
    | Some file => (read_csv file, fs)
    | None => (Return (DataFrame_empty playlist_schema), fs)
    end.

Definition save_historical_data (df : DataFrame) : M unit :=
  fun fs =>
    (Return tt,
     {| playlist_history_csv := Some df;
        track_popularity_history_csv := track_popularity_history_csv fs;
        written := "playlist_history.csv" :: written fs |}).

Definition load_track_history : M DataFrame :=
  fun fs =>
    match track_popularity_history_csv fs with
    | Some file => (read_csv file, fs)
    | None => (Return (DataFrame_empty track_schema), fs)
    end.

Definition save_track_history (df : DataFrame) : M unit :=
  fun fs =>
    (Return tt,
     {| playlist_history_csv := playlist_history_csv fs;
        track_popularity_history_csv := Some df;
        written := "track_popularity_history.csv" :: written fs |}).

(** ** The fetched snapshot *)

(** The part of the playlist object the program reads. *)
Record PlaylistInfo : Type := mkPlaylistInfo {
  playlist_name : string;
  owner_display_name : string;
  followers_total : Z
}.

(** One dictionary appended to [track_data]. *)
Record TrackRow : Type := mkTrackRow {
  track_id : string;
  name : string;
  artist : string;
  album : string;
  popularity : Z;
  duration_ms : Z;
  release_date : string;
  preview_url : option string;
  external_url : string
}.

(** [pd.DataFrame(track_data)]: the labels are the keys of the
    dictionaries, so a frame built from the empty list has no column. *)
Definition TracksFrame : Type := list TrackRow.

Definition track_data_keys : list string :=
  ["track_id"; "name"; "artist"; "album"; "popularity"; "duration_ms";
   "release_date"; "preview_url"; "external_url"].

Definition tracks_columns (tracks_df : TracksFrame) : list string :=
  match tracks_df with
  | [] => []
  | _ :: _ => track_data_keys
  end.

(** [tracks_df['popularity']] *)
Definition tracks_popularity (tracks_df : TracksFrame) : outcome (list Z) :=
  if bool_decide ("popularity" ∈ tracks_columns tracks_df)
  then Return (map popularity tracks_df)
  else Raise (KeyError "popularity").

(** [Series.mean()] of an int64 column: the cells are converted to
    float64 and added up, and the sum is divided by the count; the mean
    of no value is nan.  The cells are added from the first row on; numpy
    adds them in blocks, which gives the same sum as long as the partial
    sums stay below 2^53 in magnitude. *)
Definition mean_int64 (s : list Z) : float :=
  let total := fold_left PrimFloat.add (map float_of_Z s) 0%float in
  let count := Z.of_nat (length s) in
  (total / float_of_Z count)%float.

(** The frame [tracks_df[['track_id', 'name', 'artist', 'popularity']]]
    when [tracks_df] has the four columns. *)
Definition selected_columns (tracks_df : TracksFrame) : DataFrame :=
  {| columns := ["track_id"; "name"; "artist"; "popularity"];
     rows :=
       map (fun t =>
              <["track_id" := VStr (track_id t)]>
              (<["name" := VStr (name t)]>
              (<["artist" := VStr (artist t)]>
              (<["popularity" := VInt (popularity t)]> ∅))))
           tracks_df |}.

(** [tracks_df[['track_id', 'name', 'artist', 'popularity']].copy()]: the
    first label that is not a column is a [KeyError]. *)
Definition tracks_select (tracks_df : TracksFrame) : outcome DataFrame :=
  match List.filter (fun c => negb (bool_decide (c ∈ tracks_columns tracks_df)))
          ["track_id"; "name"; "artist"; "popularity"] with
  | [] => Return (selected_columns tracks_df)
  | missing :: _ => Raise (KeyError missing)
  end.

(** [df[c] = v]: a new label goes last, every row gets the cell. *)
Definition set_column (c : string) (v : value) (df : DataFrame) : DataFrame :=
  {| columns :=
       if has_column c df then columns df else columns df ++ [c];
     rows := map (fun r => <[c := v]> r) (rows df) |}.

(** [df[c].values] *)
Definition column_values (c : string) (df : DataFrame) : outcome (list value) :=
  if has_column c df then Return (map (cell c) (rows df))
  else Raise (KeyError c).

(** [today in values]: some element compares equal to the timestamp. *)
Definition timestamp_in (today : Z) (values : list value) : bool :=
  existsb (fun v => match v with
                    | VTimestamp ts => Z.eqb ts today
                    | _ => false
                    end) values.

(** ** The daily accumulator *)

(** Line 92: [not hist_df.empty and today in hist_df['date'].values]. *)
Definition today_recorded (today : Z) (hist_df : DataFrame) : outcome bool :=
  if empty hist_df then Return false
  else match column_values "date" hist_df with
       | Return dates => Return (timestamp_in today dates)
       | Raise e => Raise e
       end.

(** Lines 96 to 101: the one-row frame for today. *)
Definition new_row (today : Z) (playlist_info : PlaylistInfo)
    (tracks_df : TracksFrame) (popularities : list Z) : DataFrame :=
  {| columns := playlist_schema;
     rows := [ <["date" := VTimestamp today]>
               (<["saves" := VInt (followers_total playlist_info)]>
               (<["total_tracks" := VInt (Z.of_nat (length tracks_df))]>
               (<["avg_popularity" := VFloat (mean_int64 popularities)]> ∅))) ]
  |}.

(** Lines 107 and 108: the selected columns with a [date] column added. *)
Definition today_tracks (today : Z) (selected : DataFrame) : DataFrame :=
  set_column "date" (VTimestamp today) selected.

Definition update_daily_stats (now : Z) (playlist_info : PlaylistInfo)
    (tracks_df : TracksFrame) : M (DataFrame * DataFrame) :=
  let today := normalize now in
  hist_df <- load_historical_data ;;
  track_hist_df <- load_track_history ;;
  recorded <- lift (today_recorded today hist_df) ;;
  if (recorded : bool) then ret (hist_df, track_hist_df)
  else
    popularities <- lift (tracks_popularity tracks_df) ;;
    let hist_df :=
      concat hist_df (new_row today playlist_info tracks_df popularities) in
    save_historical_data hist_df ;;;
    selected <- lift (tracks_select tracks_df) ;;
    let track_hist_df := concat track_hist_df (today_tracks today selected) in
    save_track_history track_hist_df ;;;
    ret (hist_df, track_hist_df).

(** ** The provider and [get_playlist_data] *)

Record RawArtist : Type := mkRawArtist { artist_name : string }.

Record RawAlbum : Type := mkRawAlbum {
  album_name : string;
  album_release_date : string
}.

(** The track object of a playlist item, as the provider sends it. *)
Record RawTrack : Type := mkRawTrack {
  raw_id : string;
  raw_name : string;
  raw_artists : list RawArtist;
  raw_album : RawAlbum;
  raw_popularity : Z;
  raw_duration_ms : Z;
  raw_preview_url : option string;
  raw_external_urls_spotify : string
}.

(** A playlist item; [track] is [None] when the provider sends null. *)
Record Item : Type := mkItem { track : option RawTrack }.

(** One page of results: its items and the URL of the next page, if any. *)
Record Page : Type := mkPage {
  items : list Item;
  next : option string
}.

(** The client: every request either answers or raises. *)
Record Spotify : Type := mkSpotify {
  playlist : string -> outcome PlaylistInfo;
  playlist_tracks : string -> outcome Page;
  get_url : string -> outcome Page
}.

(** The URL [results['next']] when it is truthy (neither null nor empty). *)
Definition next_url (results : Page) : option string :=
  match next results with
  | Some "" | None => None
  | Some url => Some url
  end.

(** The [while results['next']] loop; [_sp.next(results)] requests the URL
    held in [results['next']].  [None]: the loop is still running when the
    fuel is spent. *)
Fixpoint drain (fuel : nat) (sp : Spotify) (results : Page)
    (tracks : list Item) : option (outcome (list Item)) :=
  match next_url results with
  | None => Some (Return tracks)
  | Some url =>
      match fuel with
      | O => None
      | S fuel' =>
          match get_url sp url with
          | Raise e => Some (Raise e)
          | Return results' =>
              drain fuel' sp results' (tracks ++ items results')
          end
      end
  end.

(** Lines 56 to 62: all the items of the playlist. *)
Definition fetch_all_tracks (fuel : nat) (sp : Spotify) (playlist_id : string)
  : option (outcome (list Item)) :=
  match playlist_tracks sp playlist_id with
  | Raise e => Some (Raise e)
  | Return results => drain fuel sp results ([] ++ items results)
  end.

(** [sep.join(parts)] *)
Fixpoint join (sep : string) (parts : list string) : string :=
  match parts with
  | [] => ""
  | x :: rest =>
      match rest with
      | [] => x
      | _ :: _ => x +:+ sep +:+ join sep rest
      end
  end.

(** The dictionary built for an item whose track exists. *)
Definition track_row (t : RawTrack) : TrackRow :=
  {| track_id := raw_id t;
     name := raw_name t;
     artist := join ", " (map artist_name (raw_artists t));
     album := album_name (raw_album t);
     popularity := raw_popularity t;
     duration_ms := raw_duration_ms t;
     release_date := album_release_date (raw_album t);
     preview_url := raw_preview_url t;
     external_url := raw_external_urls_spotify t |}.

(** Lines 64 to 79: the loop over [tracks] that fills [track_data]. *)
Definition extract_track_information (tracks : list Item) : list TrackRow :=
  fold_left
    (fun track_data item =>
       match track item with
       | Some t => track_data ++ [track_row t]
       | None => track_data
       end)
    tracks [].

Definition get_playlist_data (fuel : nat) (sp : Spotify) (playlist_id : string)
  : option (outcome (PlaylistInfo * TracksFrame)) :=
  match playlist sp playlist_id with
  | Raise e => Some (Raise e)
  | Return playlist_info =>
      match fetch_all_tracks fuel sp playlist_id with
      | None => None
      | Some (Raise e) => Some (Raise e)
      | Some (Return tracks) =>
          Some (Return (playlist_info, extract_track_information tracks))
      end
  end.

(** ** Growth tracking (the first tab of [main]) *)

(** The sort key of a row under [sort_values('date')] is its [date_key]:
    timestamps in ascending order, rows without one last. *)
Definition key_le (a b : option Z) : bool :=
  match a, b with
  | Some x, Some y => x <=? y
  | Some _, None => true
  | None, Some _ => false
  | None, None => true
  end.

Fixpoint insert_row (r : gmap string value) (sorted : list (gmap string value))
  : list (gmap string value) :=
  match sorted with
  | [] => [r]
  | h :: t =>
      if key_le (date_key r) (date_key h) then r :: h :: t
      else h :: insert_row r t
  end.

(** [hist_df.sort_values('date')]; rows with equal dates keep their order. *)
Definition sort_values_date (df : DataFrame) : outcome DataFrame :=
  if has_column "date" df
  then Return {| columns := columns df;
                 rows := fold_right insert_row [] (rows df) |}
  else Raise (KeyError "date").

(** A column read as int64; [None] when some cell is not an integer. *)
Fixpoint int64_cells (vs : list value) : option (list Z) :=
  match vs with
  | [] => Some []
  | VInt n :: rest => cons n <$> int64_cells rest
  | _ :: _ => None
  end.

(** [Series.diff()] of an int64 column: the differences are taken in
    int64 and stored in a float64 column, with nan in the first row. *)
Definition diff (s : list Z) : list float :=
  match s with
  | [] => []
  | _ :: later =>
      nan :: zip_with (fun cur prev => float_of_Z (wrap64 (cur - prev))) later s
  end.

(** [Series.pct_change()] of an int64 column. *)
Definition pct_change (s : list Z) : list float :=
  match s with
  | [] => []
  | _ :: later =>
      nan :: zip_with (fun cur prev => (float_of_Z cur / float_of_Z prev - 1)%float)
               later s
  end.

(** [Series.fillna(0)] *)
Definition fillna0 (x : float) : float := if is_nan x then 0%float else x.

(** [Series.mean()] of a float64 column: nan cells are skipped; the sum is
    taken from the first row on. *)
Definition mean_float64 (s : list float) : float :=
  let present := List.filter (fun x => negb (is_nan x)) s in
  (fold_left PrimFloat.add present 0 / float_of_Z (Z.of_nat (length present)))%float.

(** What the tab computes when more than one day is on record. *)
Record Growth : Type := mkGrowth {
  sorted_dates : list value;
  saves : list Z;
  daily_growth : list float;
  growth_rate : list float;
  total_growth : Z;
  avg_daily_growth : float;
  overall_growth_rate : float;
  days_tracked : nat
}.

Inductive GrowthTab : Type :=
| GrowthCharts (g : Growth)
| CheckBackTomorrow (current_saves : Z).

(** Lines 158 to 246.  [None]: the [saves] column holds a cell that is not
    an integer; [update_daily_stats] never writes one, and such tables are
    left out of the model. *)
Definition growth_tracking (playlist_info : PlaylistInfo) (hist_df : DataFrame)
  : option (outcome GrowthTab) :=
  if (1 <? len hist_df)%nat then
    match sort_values_date hist_df with
    | Raise e => Some (Raise e)
    | Return hist_df =>
        match column_values "saves" hist_df with
        | Raise e => Some (Raise e)
        | Return cells =>
            s ← int64_cells cells;
            let daily_growth := map fillna0 (diff s) in
            let growth_rate :=
              map fillna0 (map (fun x => (x * 100)%float) (pct_change s)) in
            let first := List.hd 0 s in
            let last := List.last s 0 in
            Some (Return (GrowthCharts
              {| sorted_dates := map (cell "date") (rows hist_df);
                 saves := s;
                 daily_growth := daily_growth;
                 growth_rate := growth_rate;
                 total_growth := wrap64 (last - first);
                 avg_daily_growth := mean_float64 (skipn 1 daily_growth);
                 overall_growth_rate :=
                   ((float_of_Z last / float_of_Z first - 1) * 100)%float;
                 days_tracked := len hist_df |}))
        end
    end
  else Some (Return (CheckBackTomorrow (followers_total playlist_info))).

(** ** The data-dependent part of [main] *)

(** [str(e)] *)
Definition str (e : Exn) : string :=
  match e with
  | KeyError key => "'" +:+ key +:+ "'"
  | ValueError msg => msg
  | ProviderError msg => msg
  end.

(** [s.split(sep)] for a separator of one character. *)
Fixpoint split (sep : Ascii.ascii) (s : string) : list string :=
  match s with
  | EmptyString => [EmptyString]
  | String c rest =>
      if bool_decide (c = sep) then EmptyString :: split sep rest
      else match split sep rest with
           | [] => [String c EmptyString]
           | segment :: segments => String c segment :: segments
           end
  end.

(** [url.split("/")[-1].split("?")[0]] *)
Definition get_playlist_id (url : string) : string :=
  List.hd "" (split "?"%char (List.last (split "/"%char url) "")).

Definition playlist_url : string :=
  "https://open.spotify.com/playlist/4fdUWePS7vpy3r1GiZtv1L".

Definition playlist_id : string := get_playlist_id playlist_url.

(** How a run of [main] ends. *)
Inductive Run : Type :=
| Stopped (error_message : string)
| Rendered (hist_df track_hist_df : DataFrame)
           (tab1 : option (outcome GrowthTab)).

(** Lines 131 to 246: fetch, [st.error] and [st.stop()] on any exception,
    otherwise accumulate and derive the trends.  An exception of
    [update_daily_stats] is not caught. *)
Definition main (fuel : nat) (sp : Spotify) (now : Z)
  : FS -> option (outcome Run * FS) :=
  fun fs =>
    match get_playlist_data fuel sp playlist_id with
    | None => None
    | Some (Raise e) =>
        Some (Return (Stopped ("Failed to fetch playlist data: " +:+ str e)), fs)
    | Some (Return (playlist_info, tracks_df)) =>
        match update_daily_stats now playlist_info tracks_df fs with
        | (Raise e, fs') => Some (Raise e, fs')
        | (Return (hist_df, track_hist_df), fs') =>
            Some (Return (Rendered hist_df track_hist_df
                            (growth_tracking playlist_info hist_df)), fs')
        end
    end.

(** ** Properties of the store *)

(** The table a file holds; a missing file stands for the empty table. *)
Definition playlist_table (fs : FS) : DataFrame :=
  default (DataFrame_empty playlist_schema) (playlist_history_csv fs).

Definition track_table (fs : FS) : DataFrame :=
  default (DataFrame_empty track_schema) (track_popularity_history_csv fs).

(** The number of records of [df] whose date is [D]. *)
Definition count_date (D : Z) (df : DataFrame) : nat :=
  length (List.filter (fun r => bool_decide (date_key r = Some D)) (rows df)).

(** At most one record per date. *)
Definition dates_unique (df : DataFrame) : Prop :=
  forall D, (count_date D df <= 1)%nat.

(** Every playlist record counts the track records of its date. *)
Definition synchronized (hist trk : DataFrame) : Prop :=
  forall r D, r ∈ rows hist -> date_key r = Some D ->
    cell "total_tracks" r = VInt (Z.of_nat (count_date D trk)).

(** No track record carries a date the playlist table lacks. *)
Definition track_dates_recorded (hist trk : DataFrame) : Prop :=
  forall D, count_date D hist = 0%nat -> count_date D trk = 0%nat.

(** The stores that successful calls of [update_daily_stats] produce from
    the empty working directory, whatever the clock and the snapshots. *)
Inductive reachable : FS -> Prop :=
| reachable_fresh : reachable fresh
| reachable_update fs now playlist_info tracks_df res fs' :
    reachable fs ->
    update_daily_stats now playlist_info tracks_df fs = (Return res, fs') ->
    reachable fs'.

(** What a successful call leaves behind when it appends. *)
Definition appended (now : Z) (playlist_info : PlaylistInfo) (tracks_df : TracksFrame)
    (hist trk : DataFrame) (fs : FS) : (DataFrame * DataFrame) * FS :=
  let today := normalize now in
  let hist' :=
    concat hist (new_row today playlist_info tracks_df
                   (map popularity tracks_df)) in
  let trk' := concat trk (today_tracks today (selected_columns tracks_df)) in
  ((hist', trk'),
   {| playlist_history_csv := Some hist';
      track_popularity_history_csv := Some trk';
      written := "track_popularity_history.csv"
                 :: "playlist_history.csv" :: written fs |}).

(** ** Properties of the provider *)

(** [walk sp p later e]: starting from page [p], following the next
    pointers answers the pages [later] in turn and then either stops at a
    page without a next pointer ([e = None]) or meets a request that
    raises ([e = Some err]). *)
Inductive walk (sp : Spotify) : Page -> list Page -> option Exn -> Prop :=
| walk_last p :
    next_url p = None -> walk sp p [] None
| walk_fail p url err :
    next_url p = Some url -> get_url sp url = Raise err ->
    walk sp p [] (Some err)
| walk_next p url q later e :
    next_url p = Some url -> get_url sp url = Return q ->
    walk sp q later e -> walk sp p (q :: later) e.

(** All the items of a sequence of pages, in page order. *)
Definition pages_items (pages : list Page) : list Item :=
  List.concat (map items pages).

(** [fetch_fails sp id n e]: some request of the fetch raises [e], after
    [n] requests for later pages: the playlist request, the request for
    the first page, or a request for a later page. *)
Inductive fetch_fails (sp : Spotify) (id : string) : nat -> Exn -> Prop :=
| fails_playlist e :
    playlist sp id = Raise e -> fetch_fails sp id 0 e
| fails_first_page playlist_info e :
    playlist sp id = Return playlist_info ->
    playlist_tracks sp id = Raise e -> fetch_fails sp id 0 e
| fails_later_page playlist_info first later e :
    playlist sp id = Return playlist_info ->
    playlist_tracks sp id = Return first ->
    walk sp first later (Some e) ->
    fetch_fails sp id (S (length later)) e.

(** Rows in the order of [sort_values('date')]. *)
Definition date_le (a b : gmap string value) : Prop :=
  key_le (date_key a) (date_key b) = true.

(** ** Sample inputs *)

(** A track, and midnight of 2024-06-01. *)
Definition sample_track : TrackRow :=
  {| track_id := "6rqhFgbbKwnb9MLmUQDhG6"; name := "Jerusalema";
     artist := "Master KG, Nomcebo Zikode"; album := "Jerusalema";
     popularity := 50; duration_ms := 342000; release_date := "2020-01-24";
     preview_url := None;
     external_url := "https://open.spotify.com/track/6rqhFgbbKwnb9MLmUQDhG6" |}.

Definition june_1_2024 : Z := 19875 * ns_per_day.

Definition followers (n : Z) : PlaylistInfo :=
  {| playlist_name := "South African Music"; owner_display_name := "owner";
     followers_total := n |}.

(** The store after the first successful call of 2024-06-01, made at 09:00
    with ten followers and one track. *)
Definition after_first_call : FS :=
  (update_daily_stats (june_1_2024 + 9 * 3600 * 1000000000) (followers 10)
     [sample_track] fresh).2.

(** The store after a further successful call, made on 2024-06-02 at 09:00
    with twelve followers and two tracks. *)
Definition after_second_day : FS :=
  (update_daily_stats (june_1_2024 + 33 * 3600 * 1000000000) (followers 12)
     [sample_track; sample_track] after_first_call).2.

(** A store whose track file holds a record dated 2024-06-01 while the
    playlist file is missing. *)
Definition orphan_store : FS :=
  {| playlist_history_csv := None;
     track_popularity_history_csv :=
       Some {| columns := track_schema;
               rows := [ <["date" := VTimestamp june_1_2024]>
                         (<["track_id" := VStr "6rqhFgbbKwnb9MLmUQDhG6"]>
                         (<["track_name" := VStr "Jerusalema"]>
                         (<["artist" := VStr "Master KG, Nomcebo Zikode"]>
                         (<["popularity" := VInt 48]> ∅)))) ] |};
     written := [] |}.

(** A provider that serves the playlist in two pages, the first of which
    holds an item whose track is null. *)
Definition sample_raw (id title : string) (artists : list string) : RawTrack :=
  {| raw_id := id; raw_name := title;
     raw_artists := map mkRawArtist artists;
     raw_album := {| album_name := title; album_release_date := "2020-01-24" |};
     raw_popularity := 50; raw_duration_ms := 342000;
     raw_preview_url := None;
     raw_external_urls_spotify := "https://open.spotify.com/track/" +:+ id |}.

Definition second_page_url : string :=
  "https://api.spotify.com/v1/playlists/4fdUWePS7vpy3r1GiZtv1L/tracks?offset=100".

Definition first_page : Page :=
  {| items := [ {| track := Some (sample_raw "6rqhFgbbKwnb9MLmUQDhG6" "Jerusalema"
                                    ["Master KG"; "Nomcebo Zikode"]) |};
                {| track := None |} ];
     next := Some second_page_url |}.

Definition second_page : Page :=
  {| items := [ {| track := Some (sample_raw "3Qm86XLflmIXVm1wcwkgDK" "Umbrella"
                                    ["Rihanna"]) |} ];
     next := None |}.

Definition two_page_provider : Spotify :=
  {| playlist := fun _ => Return (followers 10);
     playlist_tracks := fun _ => Return first_page;
     get_url := fun url =>
       if bool_decide (url = second_page_url) then Return second_page
       else Raise (ProviderError "404 Not Found") |}.

(** The same provider, failing on the request for the second page. *)
Definition failing_provider : Spotify :=
  {| playlist := fun _ => Return (followers 10);
     playlist_tracks := fun _ => Return first_page;
     get_url := fun _ => Raise (ProviderError "503 Service Unavailable") |}.

(** The playlist table of 2024-01-01 to 2024-01-03 with 100, 150 and 135
    saves, the rows stored out of order. *)
Definition january_1_2024 : Z := 19723 * ns_per_day.

Definition playlist_record (date saves total_tracks : Z) (avg : float)
  : gmap string value :=
  <["date" := VTimestamp date]>
  (<["saves" := VInt saves]>
  (<["total_tracks" := VInt total_tracks]>
  (<["avg_popularity" := VFloat avg]> ∅))).

Definition example_history : DataFrame :=
  {| columns := playlist_schema;
     rows := [ playlist_record (january_1_2024 + 2 * ns_per_day) 135 3 50;
               playlist_record january_1_2024 100 3 50;
               playlist_record (january_1_2024 + ns_per_day) 150 3 50 ] |}.

(** ** Further properties of the store *)

(** A timestamp with no time of day. *)
Definition midnight (ts : Z) : Prop := ts mod ns_per_day = 0.

(** A record as [update_daily_stats] builds it: the date is a midnight,
    saves and track count are integers, and at least one track was
    counted. *)
Definition playlist_record_ok (r : gmap string value) : Prop :=
  exists date saves total avg,
    cell "date" r = VTimestamp date /\ midnight date
    /\ cell "saves" r = VInt saves
    /\ cell "total_tracks" r = VInt total /\ 1 <= total
    /\ cell "avg_popularity" r = VFloat avg.

(** The first row is dated strictly before the second. *)
Definition date_lt (a b : gmap string value) : Prop :=
  exists x y, date_key a = Some x /\ date_key b = Some y /\ x < y.

(** [runs t fs]: the store [fs] results from successful calls whose clock
    readings never decrease, the latest reading being [t]. *)
Inductive runs : Z -> FS -> Prop :=
| runs_fresh t : runs t fresh
| runs_update t fs now playlist_info tracks_df res fs' :
    runs t fs -> t <= now ->
    update_daily_stats now playlist_info tracks_df fs = (Return res, fs') ->
    runs now fs'.

(** The order invariant of a run with a monotone clock. *)
Definition in_order (t : Z) (df : DataFrame) : Prop :=
  "date" ∈ columns df
  /\ StronglySorted date_lt (rows df)
  /\ Forall (fun r => exists d, date_key r = Some d /\ d <= normalize t) (rows df).

(** ** Further properties of the provider *)

(** A set of pages the loop cannot leave: every page in it points to a
    next page that the provider answers with a page of the set. *)
Definition endless (sp : Spotify) (P : Page -> Prop) : Prop :=
  forall p, P p ->
    exists url q, next_url p = Some url /\ get_url sp url = Return q /\ P q.

(** A provider whose only page names itself as the next page. *)
Definition looping_page : Page :=
  {| items := [ {| track := None |} ]; next := Some second_page_url |}.

Definition looping_provider : Spotify :=
  {| playlist := fun _ => Return (followers 10);
     playlist_tracks := fun _ => Return looping_page;
     get_url := fun _ => Return looping_page |}.

(** A provider whose single page holds only items with a null track. *)
Definition unavailable_provider : Spotify :=
  {| playlist := fun _ => Return (followers 10);
     playlist_tracks := fun _ =>
       Return {| items := [ {| track := None |}; {| track := None |} ];
                 next := None |};
     get_url := fun _ => Raise (ProviderError "404 Not Found") |}.

(** ** Strings *)

(** [c in s] for a character [c]. *)
Fixpoint occurs (c : Ascii.ascii) (s : string) : bool :=
  match s with
  | EmptyString => false
  | String c' rest => bool_decide (c' = c) || occurs c rest
  end.

(** ** The popularity and analysis tabs of [main] *)

(** Where a row goes among rows of non-increasing popularity: before the
    first row that is not more popular, so that equally popular rows keep
    the order of the frame ([keep='first']). *)
Fixpoint insert_by_popularity (t : TrackRow) (sorted : list TrackRow)
  : list TrackRow :=
  match sorted with
  | [] => [t]
  | h :: rest =>
      if popularity h <=? popularity t then t :: h :: rest
      else h :: insert_by_popularity t rest
  end.

(** [tracks_df.nlargest(n, 'popularity')]: the [n] most popular rows, most
    popular first.  When the frame has at most [n] rows pandas sorts all
    of it, and the order it gives equally popular rows is then the order
    of its sort. *)
Definition nlargest (n : nat) (tracks_df : TracksFrame) : outcome TracksFrame :=
  if bool_decide ("popularity" ∈ tracks_columns tracks_df)
  then Return (take n (fold_right insert_by_popularity [] tracks_df))
  else Raise (KeyError "popularity").

(** Line 252. *)
Definition top_tracks (tracks_df : TracksFrame) : outcome TracksFrame :=
  nlargest 20 tracks_df.

(** Characters that [int] skips at both ends of an ASCII string: tab,
    line feed, vertical tab, form feed, carriage return and space. *)
Definition is_space (c : Ascii.ascii) : bool :=
  let n := nat_of_ascii c in
  ((9 <=? n) && (n <=? 13) || (n =? 32))%nat.

Definition is_digit (c : Ascii.ascii) : bool :=
  let n := nat_of_ascii c in ((48 <=? n) && (n <=? 57))%nat.

Definition is_underscore (c : Ascii.ascii) : bool := bool_decide (c = "_"%char).

Fixpoint lstrip (s : string) : string :=
  match s with
  | String c rest => if is_space c then lstrip rest else s
  | EmptyString => EmptyString
  end.

Fixpoint all_space (s : string) : bool :=
  match s with
  | String c rest => is_space c && all_space rest
  | EmptyString => true
  end.

(** The longest prefix of digits and underscores, and what follows it. *)
Fixpoint digit_run (s : string) : string * string :=
  match s with
  | String c rest =>
      if is_digit c || is_underscore c
      then let '(run, after) := digit_run rest in (String c run, after)
      else (EmptyString, s)
  | EmptyString => (EmptyString, EmptyString)
  end.

(** An underscore may only stand between two digits. *)
Fixpoint underscores_between_digits (prev_digit : bool) (run : string) : bool :=
  match run with
  | String c rest =>
      if is_underscore c
      then prev_digit
           && match rest with
              | String c' _ => is_digit c'
              | EmptyString => false
              end
           && underscores_between_digits false rest
      else underscores_between_digits true rest
  | EmptyString => true
  end.

(** The number a run of digits and underscores writes in base ten. *)
Fixpoint decimal (acc : Z) (run : string) : Z :=
  match run with
  | String c rest =>
      if is_digit c
      then decimal (10 * acc + (Z.of_nat (nat_of_ascii c) - 48)) rest
      else decimal acc rest
  | EmptyString => acc
  end.

(** [int(s)] for an ASCII string [s]: optional white space, an optional
    sign, digits with single underscores between them, optional white
    space.  The message of the [ValueError] is shortened, and the bound
    recent Python versions put on the number of digits is left out. *)
Definition int (s : string) : outcome Z :=
  let s := lstrip s in
  let '(negative, s) :=
    match s with
    | String "-" rest => (true, rest)
    | String "+" rest => (false, rest)
    | _ => (false, s)
    end in
  let '(run, after) := digit_run s in
  match run with
  | EmptyString => Raise (ValueError "invalid literal for int() with base 10")
  | String _ _ =>
      if underscores_between_digits false run && all_space after
      then Return (if negative then - decimal 0 run else decimal 0 run)
      else Raise (ValueError "invalid literal for int() with base 10")
  end.

(** Lines 347 to 355; [None] is a missing release date. *)
Definition extract_year (date_str : option string) : outcome (option Z) :=
  match date_str with
  | None => Return None
  | Some s =>
      if (String.length s =? 4)%nat
      then match int s with
           | Return year => Return (Some year)
           | Raise e => Raise e
           end
      else match int (List.hd "" (split "-" s)) with
           | Return year => Return (Some year)
           | Raise e => Raise e
           end
  end.

(** [Series.apply(f)]: [f] on every cell in turn; the first exception
    ends it. *)
Fixpoint apply {A B} (f : A -> outcome B) (cells : list A) : outcome (list B) :=
  match cells with
  | [] => Return []
  | cell :: rest =>
      match f cell with
      | Raise e => Raise e
      | Return y =>
          match apply f rest with
          | Raise e => Raise e
          | Return ys => Return (y :: ys)
          end
      end
  end.

(** One more occurrence of [y] in counts kept by increasing value. *)
Fixpoint count_value (y : Z) (counts : list (Z * nat)) : list (Z * nat) :=
  match counts with
  | [] => [(y, 1%nat)]
  | (y', n) :: rest =>
      if y <? y' then (y, 1%nat) :: (y', n) :: rest
      else if y =? y' then (y', S n) :: rest
      else (y', n) :: count_value y rest
  end.

(** [Series.value_counts().sort_index()] of integers: every value with the
    number of its occurrences, by increasing value. *)
Definition value_counts_sort_index (s : list Z) : list (Z * nat) :=
  fold_right count_value [] s.

(** Lines 357 to 359: [release_year] for every row, then the number of
    tracks per release year, missing years dropped. *)
Definition year_counts (tracks_df : TracksFrame) : outcome (list (Z * nat)) :=
  if bool_decide ("release_date" ∈ tracks_columns tracks_df)
  then match apply extract_year (map (fun t => Some (release_date t)) tracks_df) with
       | Raise e => Raise e
       | Return release_year =>
           Return (value_counts_sort_index (omap id release_year))
       end
  else Raise (KeyError "release_date").

(** A string of decimal digits only. *)
Fixpoint all_digits (s : string) : bool :=
  match s with
  | String c rest => is_digit c && all_digits rest
  | EmptyString => true
  end.

(** The release date of [t] is of year [y], in one of the provider's
    precisions: a year of four digits, alone or followed by a hyphen and
    the rest of the date (a month, or a month and a day). *)
Definition released_in (t : TrackRow) (y : Z) : Prop :=
  exists year rest,
    String.length year = 4%nat /\ all_digits year = true
    /\ decimal 0 year = y
    /\ (release_date t = year \/ release_date t = year +:+ "-" +:+ rest).

(** The number of occurrences of [y]. *)
Definition occurrences (y : Z) (s : list Z) : nat :=
  length (List.filter (Z.eqb y) s).

(** The first row is at least as popular as the second. *)
Definition at_least_as_popular (a b : TrackRow) : Prop :=
  popularity b <= popularity a.

(** A snapshot of 2020 and 2019 releases. *)
Definition released (date : string) (pop : Z) : TrackRow :=
  {| track_id := "id"; name := "title"; artist := "artist"; album := "album";
     popularity := pop; duration_ms := 200000; release_date := date;
     preview_url := None; external_url := "https://open.spotify.com/track/id" |}.

Definition sample_snapshot : TracksFrame :=
  [released "2020-01-24" 50; released "2019" 70; released "2020-11" 50].

(** Counts listed by strictly increasing value. *)
Definition keys_increase (a b : Z * nat) : Prop := a.1 < b.1.

(** What the counts hold for the value [z]. *)
Fixpoint sum_count (z : Z) (counts : list (Z * nat)) : nat :=
  match counts with
  | [] => 0%nat
  | (y, n) :: rest =>
      let here := if z =? y then n else 0%nat in
      (here + sum_count z rest)%nat
  end.

(** * Facts about data frames *)

Section Frames.

Implicit Types (r : gmap string value) (cols : list string) (a b df : DataFrame).

Lemma lookup_reindex cols r c :
  reindex cols r !! c = if bool_decide (c ∈ cols) then Some (cell c r) else None.
Proof.
  unfold reindex. induction cols as [|c' cols IH]; simpl.
  - by rewrite lookup_empty.
  - rewrite lookup_insert. destruct (decide (c' = c)) as [->|Hc].
    + rewrite bool_decide_eq_true_2; [done | left].
    + rewrite IH. destruct (decide (c ∈ cols)) as [Hin|Hin].
      * rewrite !bool_decide_eq_true_2; [done | by right | done].
      * rewrite !bool_decide_eq_false_2; [done | | done].
        intros Hin'. apply elem_of_cons in Hin' as [-> | ?]; done.
Qed.

Lemma cell_reindex cols r c : c ∈ cols -> cell c (reindex cols r) = cell c r.
Proof.
  intros Hin. unfold cell at 1. rewrite lookup_reindex.
  by rewrite bool_decide_eq_true_2.
Qed.

Lemma date_key_reindex cols r :
  "date" ∈ cols -> date_key (reindex cols r) = date_key r.
Proof. intros Hin. unfold date_key. by rewrite cell_reindex. Qed.

Lemma elem_of_union_columns c (x y : list string) :
  c ∈ union_columns x y <-> c ∈ x \/ c ∈ y.
Proof.
  unfold union_columns. rewrite elem_of_app, !list_elem_of_In, filter_In.
  rewrite <- !list_elem_of_In. split.
  - intros [?|[? _]]; auto.
  - intros [?|Hy]; [by left |].
    destruct (decide (c ∈ x)) as [?|Hn]; [by left | right].
    split; [done |]. by rewrite bool_decide_eq_false_2.
Qed.

Lemma has_column_true c df : has_column c df = true <-> c ∈ columns df.
Proof. unfold has_column. apply bool_decide_eq_true. Qed.

Lemma count_date_rows D (l : list (gmap string value)) cols :
  "date" ∈ cols ->
  length (List.filter (fun r => bool_decide (date_key r = Some D))
            (map (reindex cols) l))
  = length (List.filter (fun r => bool_decide (date_key r = Some D)) l).
Proof.
  intros Hin. induction l as [|r l IH]; simpl; [done |].
  rewrite date_key_reindex by done.
  destruct (bool_decide (date_key r = Some D)); simpl; by rewrite IH.
Qed.

Lemma count_date_concat D a b :
  "date" ∈ columns a \/ "date" ∈ columns b ->
  count_date D (concat a b) = (count_date D a + count_date D b)%nat.
Proof.
  intros Hin. unfold count_date, concat. simpl.
  rewrite count_date_rows by (by apply elem_of_union_columns).
  by rewrite List.filter_app, length_app.
Qed.

Lemma timestamp_in_count D df :
  timestamp_in D (map (cell "date") (rows df)) = false <->
  count_date D df = 0%nat.
Proof.
  unfold count_date, timestamp_in, date_key.
  induction (rows df) as [|r l IH]; simpl; [done |].
  destruct (cell "date" r) as [ts| | | |]; simpl; try exact IH.
  destruct (Z.eqb_spec ts D) as [->|Hne]; simpl.
  - rewrite bool_decide_eq_true_2 by done. simpl. split; discriminate.
  - rewrite bool_decide_eq_false_2 by congruence. exact IH.
Qed.

End Frames.

(** * Facts about the accumulator *)

Section Accumulator.

Implicit Types (fs : FS) (hist trk : DataFrame) (tracks_df : TracksFrame).

Lemma load_historical_data_state fs : (load_historical_data fs).2 = fs.
Proof. unfold load_historical_data. by destruct (playlist_history_csv fs). Qed.

Lemma load_track_history_state fs : (load_track_history fs).2 = fs.
Proof.
  unfold load_track_history. by destruct (track_popularity_history_csv fs).
Qed.

Lemma load_historical_data_date fs hist :
  (load_historical_data fs).1 = Return hist -> "date" ∈ columns hist.
Proof.
  unfold load_historical_data, read_csv.
  destruct (playlist_history_csv fs) as [file|]; simpl.
  - destruct (has_column "date" file) eqn:Hc; [|discriminate].
    intros [= <-]. by apply has_column_true.
  - intros [= <-]. simpl. set_solver.
Qed.

Lemma load_track_history_date fs trk :
  (load_track_history fs).1 = Return trk -> "date" ∈ columns trk.
Proof.
  unfold load_track_history, read_csv.
  destruct (track_popularity_history_csv fs) as [file|]; simpl.
  - destruct (has_column "date" file) eqn:Hc; [|discriminate].
    intros [= <-]. by apply has_column_true.
  - intros [= <-]. simpl. set_solver.
Qed.

(** The three ways a call can go. *)
Lemma update_daily_stats_cases now playlist_info tracks_df fs :
  let today := normalize now in
  match load_historical_data fs, load_track_history fs with
  | (Raise e, _), _ =>
      update_daily_stats now playlist_info tracks_df fs = (Raise e, fs)
  | (Return hist, _), (Raise e, _) =>
      update_daily_stats now playlist_info tracks_df fs = (Raise e, fs)
  | (Return hist, _), (Return trk, _) =>
      match today_recorded today hist with
      | Raise e =>
          update_daily_stats now playlist_info tracks_df fs = (Raise e, fs)
      | Return true =>
          update_daily_stats now playlist_info tracks_df fs
          = (Return (hist, trk), fs)
      | Return false =>
          match tracks_popularity tracks_df with
          | Raise e =>
              update_daily_stats now playlist_info tracks_df fs = (Raise e, fs)
          | Return _ =>
              update_daily_stats now playlist_info tracks_df fs
              = let '(res, fs') :=
                  appended now playlist_info tracks_df hist trk fs in
                (Return res, fs')
          end
      end
  end.
Proof.
  intros today. unfold update_daily_stats, bind, lift, ret.
  pose proof (load_historical_data_state fs) as Hs1.
  pose proof (load_track_history_state fs) as Hs2.
  destruct (load_historical_data fs) as [[hist|e] fs1]; simpl in Hs1; subst fs1;
    [|done].
  destruct (load_track_history fs) as [[trk|e] fs2]; simpl in Hs2; subst fs2;
    [|done].
  fold today. destruct (today_recorded today hist) as [[|]|e]; [done | | done].
  destruct tracks_df as [|t tracks_df]; [done |].
  reflexivity.
Qed.

End Accumulator.

Section Recording.

Implicit Types (fs : FS) (hist trk df : DataFrame) (tracks_df : TracksFrame).

Lemma load_historical_data_table fs hist :
  (load_historical_data fs).1 = Return hist -> hist = playlist_table fs.
Proof.
  unfold load_historical_data, read_csv, playlist_table.
  destruct (playlist_history_csv fs) as [file|]; simpl; [|congruence].
  destruct (has_column "date" file); congruence.
Qed.

Lemma load_track_history_table fs trk :
  (load_track_history fs).1 = Return trk -> trk = track_table fs.
Proof.
  unfold load_track_history, read_csv, track_table.
  destruct (track_popularity_history_csv fs) as [file|]; simpl; [|congruence].
  destruct (has_column "date" file); congruence.
Qed.

Lemma load_historical_data_ok fs :
  "date" ∈ columns (playlist_table fs) ->
  load_historical_data fs = (Return (playlist_table fs), fs).
Proof.
  unfold load_historical_data, read_csv, playlist_table.
  destruct (playlist_history_csv fs) as [file|]; simpl; [|done].
  intros Hd. apply has_column_true in Hd. by rewrite Hd.
Qed.

Lemma load_track_history_ok fs :
  "date" ∈ columns (track_table fs) ->
  load_track_history fs = (Return (track_table fs), fs).
Proof.
  unfold load_track_history, read_csv, track_table.
  destruct (track_popularity_history_csv fs) as [file|]; simpl; [|done].
  intros Hd. apply has_column_true in Hd. by rewrite Hd.
Qed.

(** With a [date] column the test of line 92 never raises, and it says
    whether some record carries the date. *)
Lemma today_recorded_count D hist :
  "date" ∈ columns hist ->
  today_recorded D hist = Return (negb (Nat.eqb (count_date D hist) 0)).
Proof.
  intros Hd. unfold today_recorded, column_values.
  rewrite (proj2 (has_column_true _ _) Hd).
  unfold empty. destruct (columns hist) as [|c cols] eqn:Hcols; [set_solver |].
  destruct (rows hist) as [|r l] eqn:Hrows.
  - unfold count_date. by rewrite Hrows.
  - rewrite <- Hrows. f_equal.
    destruct (timestamp_in D (map (cell "date") (rows hist))) eqn:Ht.
    + destruct (Nat.eqb_spec (count_date D hist) 0) as [H0|]; [|done].
      apply timestamp_in_count in H0. congruence.
    + apply timestamp_in_count in Ht. by rewrite Ht.
Qed.

Lemma count_date_elem D df r :
  r ∈ rows df -> date_key r = Some D -> (1 <= count_date D df)%nat.
Proof.
  unfold count_date. intros Hin Hk.
  induction (rows df) as [|r' l IH]; [by apply elem_of_nil in Hin |].
  simpl. apply elem_of_cons in Hin as [<- | Hin].
  - rewrite bool_decide_eq_true_2 by done. simpl. lia.
  - destruct (bool_decide _); simpl; [lia | by apply IH].
Qed.

Lemma date_key_insert today (r : gmap string value) :
  date_key (<["date" := VTimestamp today]> r) = Some today.
Proof. unfold date_key, cell. by rewrite lookup_insert_eq. Qed.

Lemma bool_decide_Some_eq (x y : Z) :
  bool_decide (Some x = Some y) = bool_decide (x = y).
Proof. apply bool_decide_ext. split; congruence. Qed.

Lemma count_date_new_row D today playlist_info tracks_df pops :
  count_date D (new_row today playlist_info tracks_df pops)
  = if bool_decide (today = D) then 1%nat else 0%nat.
Proof.
  unfold count_date, new_row. simpl.
  rewrite date_key_insert, bool_decide_Some_eq.
  by destruct (bool_decide (today = D)).
Qed.

Lemma count_date_today_tracks D today df :
  count_date D (today_tracks today df)
  = if bool_decide (today = D) then len df else 0%nat.
Proof.
  unfold count_date, today_tracks, set_column, len. simpl.
  induction (rows df) as [|r l IH]; simpl.
  - by destruct (bool_decide (today = D)).
  - rewrite date_key_insert, bool_decide_Some_eq.
    destruct (bool_decide (today = D)); simpl; by rewrite IH.
Qed.

Lemma today_tracks_date today df : "date" ∈ columns (today_tracks today df).
Proof.
  unfold today_tracks, set_column. simpl.
  destruct (has_column "date" df) eqn:Hc.
  - by apply has_column_true.
  - apply elem_of_app. right. set_solver.
Qed.

Lemma len_selected_columns tracks_df :
  len (selected_columns tracks_df) = length tracks_df.
Proof. unfold len, selected_columns. simpl. apply length_map. Qed.

(** The tables of the store an appending call leaves. *)
Lemma appended_tables now playlist_info tracks_df hist trk fs hist' trk' fs' :
  appended now playlist_info tracks_df hist trk fs = ((hist', trk'), fs') ->
  playlist_table fs' = hist' /\ track_table fs' = trk'.
Proof. unfold appended. by intros [= <- <- <-]. Qed.

(** The dates of the two tables after an appending call. *)
Lemma count_date_appended D now playlist_info tracks_df hist trk fs :
  "date" ∈ columns hist -> "date" ∈ columns trk ->
  let '((hist', trk'), _) := appended now playlist_info tracks_df hist trk fs in
  "date" ∈ columns hist' /\ "date" ∈ columns trk'
  /\ count_date D hist'
     = (count_date D hist + if bool_decide (normalize now = D) then 1 else 0)%nat
  /\ count_date D trk'
     = (count_date D trk
        + if bool_decide (normalize now = D) then length tracks_df else 0)%nat.
Proof.
  intros Hh Ht. unfold appended. simpl.
  repeat split.
  - apply elem_of_union_columns. by left.
  - apply elem_of_union_columns. by left.
  - rewrite count_date_concat by (by left). by rewrite count_date_new_row.
  - rewrite count_date_concat by (by left).
    by rewrite count_date_today_tracks, len_selected_columns.
Qed.


(** Inversion of a successful call. *)
Lemma update_daily_stats_Return now playlist_info tracks_df fs res fs' :
  update_daily_stats now playlist_info tracks_df fs = (Return res, fs') ->
  let hist := playlist_table fs in
  let trk := track_table fs in
  "date" ∈ columns hist /\ "date" ∈ columns trk /\
  ((count_date (normalize now) hist <> 0%nat /\ res = (hist, trk) /\ fs' = fs)
   \/ (count_date (normalize now) hist = 0%nat /\ tracks_df <> [] /\
       (res, fs') = appended now playlist_info tracks_df hist trk fs)).
Proof.
  intros Hrun.
  pose proof (update_daily_stats_cases now playlist_info tracks_df fs) as H.
  simpl in H.
  pose proof (load_historical_data_table fs) as Ht1.
  pose proof (load_track_history_table fs) as Ht2.
  pose proof (load_historical_data_date fs) as Hd1.
  pose proof (load_track_history_date fs) as Hd2.
  destruct (load_historical_data fs) as [[hist|e] fs1]; simpl in *; [|congruence].
  destruct (load_track_history fs) as [[trk|e] fs2]; simpl in *; [|congruence].
  specialize (Ht1 _ eq_refl). specialize (Ht2 _ eq_refl).
  specialize (Hd1 _ eq_refl). specialize (Hd2 _ eq_refl). subst hist trk.
  split; [done |]. split; [done |].
  rewrite today_recorded_count in H by done.
  destruct (Nat.eqb_spec (count_date (normalize now) (playlist_table fs)) 0)
    as [H0|Hn0]; simpl in H.
  - right. split; [done |].
    destruct tracks_df as [|t tracks_df]; [simpl in H; congruence |].
    split; [done |]. simpl in H. rewrite Hrun in H.
    by injection H as -> ->.
  - left. split; [done |]. rewrite Hrun in H. by injection H as -> ->.
Qed.

End Recording.

(** * The claims about the accumulator *)




(** Every successful call keeps the dates of the playlist table distinct. *)
Lemma update_daily_stats_dates_unique now playlist_info tracks_df fs res fs' :
  update_daily_stats now playlist_info tracks_df fs = (Return res, fs') ->
  dates_unique (playlist_table fs) -> dates_unique (playlist_table fs').
Proof.
  intros Hrun Hu.
  apply update_daily_stats_Return in Hrun as (Hd1 & Hd2 & Hcase). simpl in Hcase.
  destruct Hcase as [(_ & _ & ->) | (H0 & _ & Happ)]; [done |].
  intros D.
  pose proof (count_date_appended D now playlist_info tracks_df
                (playlist_table fs) (track_table fs) fs Hd1 Hd2) as Hc.
  destruct res as [hist' trk']. symmetry in Happ. rewrite Happ in Hc.
  destruct (appended_tables _ _ _ _ _ _ _ _ _ Happ) as [-> _].
  destruct Hc as (_ & _ & -> & _). case_bool_decide as Hd.
  - subst D. rewrite H0. lia.
  - specialize (Hu D). lia.
Qed.

(** C2. In every store reached from the empty working directory by
    successful calls, the playlist table holds at most one record per
    date. *)
Theorem reachable_dates_unique fs :
  reachable fs -> forall D, (count_date D (playlist_table fs) <= 1)%nat.
Proof.
  induction 1 as [|fs now playlist_info tracks_df res fs' _ IH Hrun].
  - intros D. unfold count_date. simpl. lia.
  - by eapply update_daily_stats_dates_unique.
Qed.

Lemma reachable_after_first_call : reachable after_first_call.
Proof.
  eapply (reachable_update fresh (june_1_2024 + 9 * 3600 * 1000000000)
            (followers 10) [sample_track]
            (playlist_table after_first_call, track_table after_first_call)
            after_first_call reachable_fresh).
  vm_compute; reflexivity.
Defined.

Lemma reachable_dates_unique_witness :
  (count_date june_1_2024 (playlist_table after_first_call) <= 1)%nat.
Proof.
  exact (reachable_dates_unique after_first_call reachable_after_first_call
           june_1_2024).
Defined.

(** C3, as stated, fails: date-synchronization alone is not preserved.
    From [orphan_store], whose tables are synchronized because the
    playlist table is empty, a call on 2024-06-01 with one track records
    [total_tracks = 1] while the track table then holds two records of
    that date. *)
Lemma synchronized_not_preserved :
  ~ (forall fs now playlist_info tracks_df res fs',
       synchronized (playlist_table fs) (track_table fs) ->
       update_daily_stats now playlist_info tracks_df fs = (Return res, fs') ->
       synchronized (playlist_table fs') (track_table fs')).
Proof.
  intros H.
  pose (run := update_daily_stats june_1_2024 (followers 10) [sample_track]
                 orphan_store).
  assert (Hsync : synchronized (playlist_table orphan_store)
                    (track_table orphan_store)).
  { intros r D Hin. by apply elem_of_nil in Hin. }
  assert (Hrun : exists res, run = (Return res, run.2)).
  { eexists. vm_compute. reflexivity. }
  destruct Hrun as [res Hrun].
  specialize (H orphan_store june_1_2024 (followers 10) [sample_track] res
                run.2 Hsync Hrun).
  destruct (rows (playlist_table run.2)) as [|r l] eqn:Hrows;
    [vm_compute in Hrows; discriminate |].
  specialize (H r june_1_2024).
  assert (Hr : r ∈ rows (playlist_table run.2)) by (rewrite Hrows; left).
  assert (Hk : date_key r = Some june_1_2024).
  { vm_compute in Hrows. injection Hrows as <- _. vm_compute. reflexivity. }
  specialize (H Hr Hk).
  vm_compute in Hrows. injection Hrows as <- _.
  vm_compute in H. discriminate H.
Qed.

(** Appending today's record and today's batch keeps the two tables
    paired, provided today is new to both. *)
Lemma appended_synchronized now playlist_info tracks_df hist trk fs hist' trk' fs' :
  "date" ∈ columns hist -> "date" ∈ columns trk ->
  synchronized hist trk -> track_dates_recorded hist trk ->
  count_date (normalize now) hist = 0%nat ->
  appended now playlist_info tracks_df hist trk fs = ((hist', trk'), fs') ->
  synchronized hist' trk' /\ track_dates_recorded hist' trk'.
Proof.
  intros Hd1 Hd2 Hsync Hrec H0 Ha.
  pose proof (fun D => count_date_appended D now playlist_info tracks_df
                hist trk fs Hd1 Hd2) as Hc.
  rewrite Ha in Hc. unfold appended in Ha. injection Ha as Eh Et _.
  set (today := normalize now) in *.
  split.
  - intros r' D Hin Hk.
    destruct (Hc D) as (Hh' & _ & _ & ->).
    rewrite <- Eh in Hin, Hh'. simpl in Hin, Hh'.
    apply list_elem_of_fmap in Hin as (r & -> & Hin).
    rewrite date_key_reindex in Hk by done.
    rewrite cell_reindex
      by (apply elem_of_union_columns; right;
          do 2 apply list_elem_of_further; apply list_elem_of_here).
    apply elem_of_app in Hin as [Hin | Hin].
    + pose proof (count_date_elem D hist r Hin Hk) as Hge.
      rewrite bool_decide_eq_false_2 by (intros ->; lia).
      rewrite Nat.add_0_r. by apply Hsync.
    + apply list_elem_of_singleton in Hin as ->.
      rewrite date_key_insert in Hk. injection Hk as <-.
      rewrite bool_decide_eq_true_2 by done.
      rewrite (Hrec today H0). simpl.
      unfold cell. rewrite lookup_insert_ne by done.
      rewrite lookup_insert_ne by done. by rewrite lookup_insert_eq.
  - intros D. destruct (Hc D) as (_ & _ & -> & ->).
    case_bool_decide; [lia |]. rewrite !Nat.add_0_r. apply Hrec.
Qed.

(** C3, amended. When the tables are date-synchronized and no track record
    carries a date the playlist table lacks, a successful call leaves them
    so: every date of the playlist table has as many track records as its
    playlist record's [total_tracks] says. *)
Theorem update_daily_stats_synchronized now playlist_info tracks_df fs res fs' :
  synchronized (playlist_table fs) (track_table fs) ->
  track_dates_recorded (playlist_table fs) (track_table fs) ->
  update_daily_stats now playlist_info tracks_df fs = (Return res, fs') ->
  synchronized (playlist_table fs') (track_table fs')
  /\ track_dates_recorded (playlist_table fs') (track_table fs').
Proof.
  intros Hsync Hrec Hrun.
  apply update_daily_stats_Return in Hrun as (Hd1 & Hd2 & Hcase). simpl in Hcase.
  destruct Hcase as [(_ & _ & ->) | (H0 & _ & Happ)]; [done |].
  destruct res as [hist' trk']. symmetry in Happ.
  destruct (appended_tables _ _ _ _ _ _ _ _ _ Happ) as [-> ->].
  exact (appended_synchronized _ _ _ _ _ _ _ _ _ Hd1 Hd2 Hsync Hrec H0 Happ).
Qed.

(** X3: both properties hold in every store reached from the empty
    working directory by successful calls of [update_daily_stats]: every
    date on record has as many track records as its playlist record's
    [total_tracks] says, and no track record carries a date that has no
    playlist record. *)
Lemma reachable_synchronized fs :
  reachable fs ->
  synchronized (playlist_table fs) (track_table fs)
  /\ track_dates_recorded (playlist_table fs) (track_table fs).
Proof.
  induction 1 as [|fs now playlist_info tracks_df res fs' _ [Hsync Hrec] Hrun].
  - split; [| done]. intros r D Hin. by apply elem_of_nil in Hin.
  - apply update_daily_stats_Return in Hrun as (Hd1 & Hd2 & Hcase).
    simpl in Hcase.
    destruct Hcase as [(_ & _ & ->) | (H0 & _ & Happ)]; [done |].
    destruct res as [hist' trk']. symmetry in Happ.
    destruct (appended_tables _ _ _ _ _ _ _ _ _ Happ) as [-> ->].
    exact (appended_synchronized _ _ _ _ _ _ _ _ _ Hd1 Hd2 Hsync Hrec H0 Happ).
Qed.

Lemma update_daily_stats_synchronized_witness :
  synchronized (playlist_table after_first_call) (track_table after_first_call)
  /\ track_dates_recorded (playlist_table after_first_call)
       (track_table after_first_call).
Proof.
  apply (update_daily_stats_synchronized (june_1_2024 + 9 * 3600 * 1000000000)
           (followers 10) [sample_track] fresh
           (playlist_table after_first_call, track_table after_first_call)).
  - intros r D Hin. by apply elem_of_nil in Hin.
  - intros D _. reflexivity.
  - vm_compute; reflexivity.
Defined.

(** C4 on the code. With today not yet recorded, a snapshot without
    tracks makes the call raise [KeyError: 'popularity'] (the frame built
    from an empty list has no column) instead of recording
    [(today, 42, 0, avg)]; nothing is written. *)
Theorem update_daily_stats_empty_snapshot_raises now :
  update_daily_stats now (followers 42) [] fresh
  = (Raise (KeyError "popularity"), fresh).
Proof. reflexivity. Qed.

(** C5 on the code. The first append to the track table, whose declared
    columns are those of [track_schema], persists a sixth column [name];
    the appended rows hold the track name there and NaN under
    [track_name]. *)
Theorem update_daily_stats_track_columns now playlist_info t tracks_df fs' res :
  update_daily_stats now playlist_info (t :: tracks_df) fresh = (Return res, fs') ->
  columns (track_table fresh) = track_schema
  /\ columns (track_table fs')
     = ["date"; "track_id"; "track_name"; "artist"; "popularity"; "name"]
  /\ (forall r, r ∈ rows (track_table fs') ->
        cell "track_name" r = NaN /\ exists n, cell "name" r = VStr n).
Proof.
  intros Hrun. split; [reflexivity |].
  apply update_daily_stats_Return in Hrun as (_ & _ & Hcase). simpl in Hcase.
  destruct Hcase as [(Hn0 & _) | (_ & _ & Happ)]; [by destruct Hn0 |].
  unfold appended in Happ. injection Happ as -> ->.
  split; [reflexivity |].
  intros r Hin.
  change (track_table _)
    with (concat (DataFrame_empty track_schema)
            (today_tracks (normalize now) (selected_columns (t :: tracks_df))))
    in Hin.
  unfold concat in Hin. cbn [rows DataFrame_empty app] in Hin.
  apply list_elem_of_fmap in Hin as (r0 & -> & Hin).
  unfold today_tracks, set_column in Hin. cbn [rows] in Hin.
  apply list_elem_of_fmap in Hin as (r1 & -> & Hin).
  unfold selected_columns in Hin. cbn [rows] in Hin.
  apply list_elem_of_fmap in Hin as (t' & -> & _).
  cbn [columns DataFrame_empty].
  split.
  - rewrite cell_reindex by (do 2 apply list_elem_of_further; apply list_elem_of_here).
    unfold cell. by repeat (rewrite lookup_insert_ne by done).
  - exists (name t').
    rewrite cell_reindex by (do 5 apply list_elem_of_further; apply list_elem_of_here).
    unfold cell. do 2 (rewrite lookup_insert_ne by done).
    by rewrite lookup_insert_eq.
Qed.

Lemma update_daily_stats_track_columns_witness :
  columns (track_table after_first_call)
  = ["date"; "track_id"; "track_name"; "artist"; "popularity"; "name"]
  /\ values (track_table after_first_call)
     = [[VTimestamp june_1_2024; VStr "6rqhFgbbKwnb9MLmUQDhG6"; NaN;
         VStr "Master KG, Nomcebo Zikode"; VInt 50; VStr "Jerusalema"]].
Proof.
  split; [| vm_compute; reflexivity].
  assert (Hfirst : update_daily_stats (june_1_2024 + 9 * 3600 * 1000000000)
                     (followers 10) [sample_track] fresh
                   = (Return (playlist_table after_first_call,
                              track_table after_first_call), after_first_call))
    by (vm_compute; reflexivity).
  exact (proj1 (proj2 (update_daily_stats_track_columns _ _ _ _ _ _ Hfirst))).
Defined.

(** C10. When today is not yet recorded and reading the popularity column
    of the snapshot raises, the call raises that exception and the store
    is the one it was given: no file is written.  A snapshot without
    tracks is such a case, with [KeyError: 'popularity']. *)
Theorem update_daily_stats_raise_before_save now playlist_info tracks_df fs :
  "date" ∈ columns (playlist_table fs) -> "date" ∈ columns (track_table fs) ->
  count_date (normalize now) (playlist_table fs) = 0%nat ->
  (forall e, tracks_popularity tracks_df = Raise e ->
     update_daily_stats now playlist_info tracks_df fs = (Raise e, fs))
  /\ (tracks_df = [] ->
      update_daily_stats now playlist_info tracks_df fs
      = (Raise (KeyError "popularity"), fs)).
Proof.
  intros Hd1 Hd2 H0.
  pose proof (update_daily_stats_cases now playlist_info tracks_df fs) as H.
  simpl in H.
  rewrite (load_historical_data_ok _ Hd1), (load_track_history_ok _ Hd2) in H.
  rewrite today_recorded_count, H0 in H by done. simpl in H.
  split.
  - intros e He. by rewrite He in H.
  - intros ->. exact H.
Qed.

Lemma update_daily_stats_raise_before_save_witness :
  update_daily_stats (june_1_2024 + 24 * 3600 * 1000000000) (followers 12) []
    after_first_call
  = (Raise (KeyError "popularity"), after_first_call).
Proof.
  apply (update_daily_stats_raise_before_save
           (june_1_2024 + 24 * 3600 * 1000000000) (followers 12) []
           after_first_call).
  - vm_compute. apply list_elem_of_here.
  - vm_compute. apply list_elem_of_here.
  - vm_compute; reflexivity.
  - reflexivity.
Defined.

(** Whatever exception a call raises, the store is left as it was. *)
Lemma update_daily_stats_Raise now playlist_info tracks_df fs e fs' :
  update_daily_stats now playlist_info tracks_df fs = (Raise e, fs') -> fs' = fs.
Proof.
  intros Hrun.
  pose proof (update_daily_stats_cases now playlist_info tracks_df fs) as H.
  simpl in H.
  destruct (load_historical_data fs) as [[hist|e1] fs1]; [|congruence].
  destruct (load_track_history fs) as [[trk|e2] fs2]; [|congruence].
  destruct (today_recorded (normalize now) hist) as [[|]|e3]; try congruence.
  destruct (tracks_popularity tracks_df); [|congruence].
  unfold appended in H. congruence.
Qed.

(** * The fetcher and the normalizer *)

Section Fetch.

Variable sp : Spotify.

(** The loop follows a walk to its end, given fuel for every request. *)
Lemma drain_walk p later e :
  walk sp p later e ->
  forall fuel tracks,
    (length later + (if e is Some _ then 1 else 0) <= fuel)%nat ->
    drain fuel sp p tracks
    = Some (match e with
            | None => Return (tracks ++ pages_items later)
            | Some err => Raise err
            end).
Proof.
  induction 1 as [p Hn | p url err Hn Hg | p url q later e Hn Hg _ IH];
    intros fuel tracks Hfuel.
  - destruct fuel; simpl; rewrite Hn; by rewrite app_nil_r.
  - destruct fuel as [|fuel]; [simpl in Hfuel; lia |].
    simpl. by rewrite Hn, Hg.
  - destruct fuel as [|fuel]; [simpl in Hfuel; lia |].
    simpl. rewrite Hn, Hg. rewrite IH by (simpl in Hfuel; lia).
    destruct e; [done |].
    unfold pages_items. simpl. by rewrite app_assoc.
Qed.

End Fetch.

(** C7. When the provider answers the playlist's tracks in the pages
    [first :: later], each page but the last pointing to the next, the
    fetcher returns the items of all the pages, concatenated in page
    order; their number is the sum of the pages' item counts. *)
Theorem fetch_all_tracks_pages sp id first later fuel :
  playlist_tracks sp id = Return first ->
  walk sp first later None ->
  (length later <= fuel)%nat ->
  fetch_all_tracks fuel sp id = Some (Return (pages_items (first :: later)))
  /\ length (pages_items (first :: later))
     = sum_list (map (fun p => length (items p)) (first :: later)).
Proof.
  intros Hfirst Hwalk Hfuel. split.
  - unfold fetch_all_tracks. rewrite Hfirst.
    by rewrite (drain_walk sp first later None Hwalk) by (simpl; lia).
  - unfold pages_items. generalize (first :: later). clear.
    induction l as [|p l IH]; simpl; [done |].
    by rewrite length_app, IH.
Qed.

Section Normalizer.

Let step (track_data : list TrackRow) (item : Item) : list TrackRow :=
  match track item with
  | Some t => track_data ++ [track_row t]
  | None => track_data
  end.

Lemma fold_left_step tracks track_data :
  fold_left step tracks track_data = track_data ++ fold_left step tracks [].
Proof.
  revert track_data. induction tracks as [|item tracks IH]; intros track_data.
  - simpl. by rewrite app_nil_r.
  - simpl. rewrite IH. rewrite (IH (step [] item)).
    unfold step. destruct (track item); simpl; [|done].
    by rewrite <- app_assoc.
Qed.

Lemma extract_track_information_cons item tracks :
  extract_track_information (item :: tracks)
  = match track item with
    | Some t => track_row t :: extract_track_information tracks
    | None => extract_track_information tracks
    end.
Proof.
  unfold extract_track_information. fold step. simpl.
  rewrite fold_left_step. unfold step at 1. by destruct (track item).
Qed.

Lemma extract_track_information_app tracks1 tracks2 :
  extract_track_information (tracks1 ++ tracks2)
  = extract_track_information tracks1 ++ extract_track_information tracks2.
Proof.
  induction tracks1 as [|item tracks1 IH]; [done |].
  simpl. rewrite !extract_track_information_cons, IH.
  by destruct (track item).
Qed.

End Normalizer.

(** C8. The normalizer yields one row per item whose track exists, in the
    order of the items, and nothing for an item whose track is null: the
    rows are the rows of the existing tracks; a null item can be removed
    from the input without changing the output; the row at any position is
    built from the existing track at that position, its artist field
    being the artists' names joined by a comma and a space. *)
Theorem extract_track_information_rows tracks :
  extract_track_information tracks = map track_row (omap track tracks)
  /\ (forall before after,
        extract_track_information (before ++ {| track := None |} :: after)
        = extract_track_information (before ++ after))
  /\ (forall (i : nat) t,
        omap track tracks !! i = Some t ->
        exists row,
          extract_track_information tracks !! i = Some row
          /\ track_id row = raw_id t
          /\ artist row = join ", " (map artist_name (raw_artists t)))
  /\ (forall a b rest,
        join ", " [] = "" /\ join ", " [a] = a
        /\ join ", " (a :: b :: rest) = a +:+ ", " +:+ join ", " (b :: rest)).
Proof.
  assert (Hrows : forall l,
            extract_track_information l = map track_row (omap track l)).
  { induction l as [|item l IH]; [done |].
    rewrite extract_track_information_cons. simpl.
    destruct (track item); simpl; by rewrite IH. }
  split; [apply Hrows |]. split; [| split].
  - intros before after.
    by rewrite !extract_track_information_app, extract_track_information_cons.
  - intros i t Hi. exists (track_row t). rewrite Hrows.
    rewrite list_lookup_fmap, Hi. done.
  - done.
Qed.

Lemma get_playlist_data_fails sp id n e fuel :
  fetch_fails sp id n e -> (n <= fuel)%nat ->
  get_playlist_data fuel sp id = Some (Raise e).
Proof.
  intros Hfail Hfuel. unfold get_playlist_data, fetch_all_tracks.
  destruct Hfail as [e H | info e H1 H2 | info first later e H1 H2 Hw].
  - by rewrite H.
  - by rewrite H1, H2.
  - rewrite H1, H2.
    by rewrite (drain_walk sp first later (Some e) Hw) by (simpl; lia).
Qed.

(** C9. When a request of the fetch raises, whether for the playlist, for
    the first page or for a later page, [get_playlist_data] raises that
    exception and returns no data; [main] then reports it and stops with
    the store untouched: [update_daily_stats] is not run and nothing is
    derived. *)
Theorem provider_failure_stops_main sp n e fuel :
  fetch_fails sp playlist_id n e -> (n <= fuel)%nat ->
  get_playlist_data fuel sp playlist_id = Some (Raise e)
  /\ forall now fs,
       main fuel sp now fs
       = Some (Return (Stopped ("Failed to fetch playlist data: " +:+ str e)), fs).
Proof.
  intros Hfail Hfuel.
  pose proof (get_playlist_data_fails sp playlist_id n e fuel Hfail Hfuel) as H.
  split; [done |]. intros now fs. unfold main. by rewrite H.
Qed.

Lemma fetch_all_tracks_pages_witness :
  fetch_all_tracks 1 two_page_provider playlist_id
  = Some (Return (items first_page ++ items second_page))
  /\ length (items first_page ++ items second_page) = 3%nat.
Proof.
  assert (Hw : walk two_page_provider first_page [second_page] None).
  { eapply walk_next; [reflexivity | reflexivity |].
    apply walk_last. reflexivity. }
  assert (Hlen : (length [second_page] <= 1)%nat) by (simpl; lia).
  exact (fetch_all_tracks_pages two_page_provider playlist_id first_page
           [second_page] 1 eq_refl Hw Hlen).
Defined.

Lemma provider_failure_stops_main_witness :
  get_playlist_data 1 failing_provider playlist_id
  = Some (Raise (ProviderError "503 Service Unavailable"))
  /\ main 1 failing_provider june_1_2024 after_first_call
     = Some (Return (Stopped
               "Failed to fetch playlist data: 503 Service Unavailable"),
             after_first_call).
Proof.
  assert (Hw : walk failing_provider first_page []
                 (Some (ProviderError "503 Service Unavailable"))).
  { eapply walk_fail; reflexivity. }
  assert (Hlen : (1 <= 1)%nat) by lia.
  destruct (provider_failure_stops_main failing_provider 1 _ 1
              (fails_later_page failing_provider playlist_id (followers 10)
                 first_page [] _ eq_refl eq_refl Hw) Hlen) as [Hdata Hmain].
  split; [exact Hdata | exact (Hmain june_1_2024 after_first_call)].
Defined.

(** * Growth tracking *)

Section Sorting.

Implicit Types (r : gmap string value) (l : list (gmap string value)).

Lemma key_le_total a b : key_le a b = false -> key_le b a = true.
Proof.
  destruct a as [x|], b as [y|]; simpl; try done.
  intros H. apply Z.leb_gt in H. apply Z.leb_le. lia.
Qed.

Lemma key_le_trans a b c :
  key_le a b = true -> key_le b c = true -> key_le a c = true.
Proof.
  destruct a as [x|], b as [y|], c as [z|]; simpl; try done.
  rewrite !Z.leb_le. lia.
Qed.

Lemma insert_row_perm r l : insert_row r l ≡ₚ r :: l.
Proof.
  induction l as [|h t IH]; simpl; [done |].
  destruct (key_le (date_key r) (date_key h)); [done |].
  rewrite IH. apply Permutation_swap.
Qed.

Lemma insert_row_sorted r l :
  StronglySorted date_le l -> StronglySorted date_le (insert_row r l).
Proof.
  induction 1 as [|h t Hs IH Hall]; simpl.
  - repeat constructor.
  - destruct (key_le (date_key r) (date_key h)) eqn:Hle.
    + constructor; [by constructor |].
      constructor; [done |].
      eapply Forall_impl; [exact Hall |].
      intros x Hx. by eapply key_le_trans.
    + constructor; [done |].
      rewrite insert_row_perm. constructor; [|done].
      by apply key_le_total.
Qed.

Lemma sort_rows_perm l : fold_right insert_row [] l ≡ₚ l.
Proof.
  induction l as [|r l IH]; simpl; [done |].
  by rewrite insert_row_perm, IH.
Qed.

Lemma sort_rows_sorted l : StronglySorted date_le (fold_right insert_row [] l).
Proof.
  induction l as [|r l IH]; simpl; [constructor |].
  by apply insert_row_sorted.
Qed.

End Sorting.

(** ** Conversions from int64 never produce nan *)

Section NotNan.

Lemma shr_1_nonneg mrs : 0 <= shr_m mrs -> 0 <= shr_m (shr_1 mrs).
Proof.
  destruct mrs as [m r s]. simpl.
  destruct m as [|p|p]; [done | | lia]; intros _.
  - destruct p; simpl; lia.
Qed.

Lemma iter_pos_shr_1_nonneg p mrs :
  0 <= shr_m mrs -> 0 <= shr_m (SpecFloat.iter_pos shr_1 p mrs).
Proof.
  revert mrs. induction p as [p IH | p IH |]; intros mrs H; simpl.
  - apply IH, IH. by apply shr_1_nonneg.
  - by apply IH, IH.
  - by apply shr_1_nonneg.
Qed.

Lemma shr_fexp_nonneg prec emax m e l :
  0 <= m -> 0 <= shr_m (fst (shr_fexp prec emax m e l)).
Proof.
  intros H. unfold shr_fexp, shr.
  assert (H0 : 0 <= shr_m (shr_record_of_loc m l)).
  { destruct l as [|[]]; simpl; lia. }
  destruct (fexp prec emax (Zdigits2 m + e) - e); simpl; try done.
  by apply iter_pos_shr_1_nonneg.
Qed.

Lemma round_nearest_even_nonneg m l : 0 <= m -> 0 <= round_nearest_even m l.
Proof.
  intros H. destruct l as [|[]]; simpl; try lia.
  destruct (Z.even m); lia.
Qed.

Lemma binary_round_aux_not_nan prec emax sx mx ex lx :
  0 <= mx -> binary_round_aux prec emax sx mx ex lx <> S754_nan.
Proof.
  intros H. unfold binary_round_aux.
  pose proof (shr_fexp_nonneg prec emax mx ex lx H) as H1.
  destruct (shr_fexp prec emax mx ex lx) as [mrs' e']. simpl in H1.
  pose proof (shr_fexp_nonneg prec emax _ e' loc_Exact
                (round_nearest_even_nonneg _ (loc_of_shr_record mrs') H1)) as H2.
  destruct (shr_fexp prec emax _ e' loc_Exact) as [mrs'' e'']. simpl in H2.
  destruct (shr_m mrs'') as [|m|m]; [done | | lia].
  by destruct (e'' <=? emax - prec).
Qed.

Lemma binary_normalize_not_nan prec emax m e szero :
  binary_normalize prec emax m e szero <> S754_nan.
Proof.
  unfold binary_normalize, binary_round.
  destruct m as [|p|p]; [done | |].
  - destruct (shl_align p e _) as [mz ez]. by apply binary_round_aux_not_nan.
  - destruct (shl_align p e _) as [mz ez]. by apply binary_round_aux_not_nan.
Qed.

Lemma SFeqb_refl x : x <> S754_nan -> SFeqb x x = true.
Proof.
  intros H. unfold SFeqb, SFcompare.
  destruct x as [s|s| |s m e]; try done.
  - by destruct s.
  - rewrite Z.compare_refl, BinPos.Pos.compare_cont_refl. by destruct s.
Qed.

Lemma is_nan_Prim2SF x : Prim2SF x <> S754_nan -> is_nan x = false.
Proof.
  intros H. unfold is_nan. rewrite FloatAxioms.eqb_spec. by rewrite SFeqb_refl.
Qed.

Lemma float_of_Z_not_nan z : is_nan (float_of_Z z) = false.
Proof.
  destruct z as [|p|p]; unfold float_of_Z.
  - reflexivity.
  - apply is_nan_Prim2SF.
    rewrite FloatAxioms.of_uint63_spec. apply binary_normalize_not_nan.
  - destruct (Z.neg p =? - 2 ^ 63); [reflexivity |].
    apply is_nan_Prim2SF.
    rewrite FloatAxioms.opp_spec, FloatAxioms.of_uint63_spec.
    pose proof (binary_normalize_not_nan prec emax
                  (Uint63.to_Z (Uint63.of_Z (- Z.neg p))) 0 false) as H.
    by destruct (binary_normalize _ _ _ _ _).
Qed.

End NotNan.

Lemma fillna0_float_of_Z z : fillna0 (float_of_Z z) = float_of_Z z.
Proof. unfold fillna0. by rewrite float_of_Z_not_nan. Qed.

Lemma int64_cells_Some (vs : list value) :
  Forall (fun v => exists n, v = VInt n) vs ->
  exists s, int64_cells vs = Some s /\ vs = map VInt s.
Proof.
  induction 1 as [|v vs [n ->] _ (s & Hs & ->)].
  - by exists [].
  - exists (n :: s). split; [|done].
    simpl. by rewrite Hs.
Qed.

Lemma lookup_diff (s : list Z) (i : nat) prev cur :
  s !! i = Some prev -> s !! S i = Some cur ->
  diff s !! S i = Some (float_of_Z (wrap64 (cur - prev))).
Proof.
  destruct s as [|x later]; [done |]. intros Hp Hc. simpl in *.
  by rewrite lookup_zip_with, Hc, Hp.
Qed.

Lemma lookup_pct_change (s : list Z) (i : nat) prev cur :
  s !! i = Some prev -> s !! S i = Some cur ->
  pct_change s !! S i = Some (float_of_Z cur / float_of_Z prev - 1)%float.
Proof.
  destruct s as [|x later]; [done |]. intros Hp Hc. simpl in *.
  by rewrite lookup_zip_with, Hc, Hp.
Qed.

Lemma length_diff (s : list Z) : length (diff s) = length s.
Proof.
  destruct s as [|x later]; [done |]. simpl.
  rewrite length_zip_with. simpl. f_equal. lia.
Qed.

Lemma length_pct_change (s : list Z) : length (pct_change s) = length s.
Proof.
  destruct s as [|x later]; [done |]. simpl.
  rewrite length_zip_with. simpl. f_equal. lia.
Qed.

(** int64 subtraction is exact when the result fits. *)
Lemma wrap64_small z : - 2 ^ 63 <= z < 2 ^ 63 -> wrap64 z = z.
Proof. intros H. unfold wrap64. rewrite Z.mod_small; lia. Qed.

(** C6, as stated, fails on the example: in binary64 the third growth rate
    of the saves 100, 150, 135 is [(135 / 150 - 1) * 100], which is not
    [-10]. *)
Lemma growth_rate_example_inexact :
  exists g,
    growth_tracking (followers 135) example_history
    = Some (Return (GrowthCharts g))
    /\ saves g = [100; 150; 135]
    /\ growth_rate g <> [0; 50; -10]%float.
Proof.
  eexists. split; [vm_compute; reflexivity |]. split; [reflexivity |].
  intros H.
  apply (f_equal (fun l => (nth 2 l 0 =? -10)%float)) in H.
  vm_compute in H. discriminate H.
Qed.

(** C6, amended. For a playlist table of at least two records whose saves
    are integers, the tab computes, over the rows sorted by date:
    [daily_growth], 0 in the first row and then [saves[i] - saves[i-1]],
    an int64 difference held as a float64; [growth_rate], 0 in the first
    row and then [(saves[i] / saves[i-1] - 1) * 100] evaluated in binary64,
    a nan being replaced by 0; the total growth, last saves minus first
    saves in int64; the mean of [daily_growth] without its first row; the
    overall rate [(last / first - 1) * 100] in binary64; and the number of
    rows.  For the saves 100, 150, 135 these are [0, 50, -15],
    [0, 50, -9.999999999999998], 35, 17.5 and 35.00000000000001, the
    rates within [2^-46] of 0, 50, -10 and 35. *)
Theorem growth_tracking_trends playlist_info hist_df :
  (2 <= len hist_df)%nat ->
  "date" ∈ columns hist_df -> "saves" ∈ columns hist_df ->
  Forall (fun r => exists n, cell "saves" r = VInt n) (rows hist_df) ->
  exists g sorted,
    growth_tracking playlist_info hist_df = Some (Return (GrowthCharts g))
    /\ sorted ≡ₚ rows hist_df /\ StronglySorted date_le sorted
    /\ map (cell "saves") sorted = map VInt (saves g)
    /\ sorted_dates g = map (cell "date") sorted
    /\ days_tracked g = len hist_df
    /\ length (saves g) = len hist_df
    /\ length (daily_growth g) = len hist_df
    /\ length (growth_rate g) = len hist_df
    /\ daily_growth g !! 0%nat = Some 0%float
    /\ growth_rate g !! 0%nat = Some 0%float
    /\ (forall (i : nat) prev cur,
          saves g !! i = Some prev -> saves g !! S i = Some cur ->
          daily_growth g !! S i = Some (float_of_Z (wrap64 (cur - prev)))
          /\ growth_rate g !! S i
             = Some (fillna0 ((float_of_Z cur / float_of_Z prev - 1) * 100)%float))
    /\ total_growth g = wrap64 (List.last (saves g) 0 - List.hd 0 (saves g))
    /\ (- 2 ^ 63 <= List.last (saves g) 0 - List.hd 0 (saves g) < 2 ^ 63 ->
        total_growth g = List.last (saves g) 0 - List.hd 0 (saves g))
    /\ avg_daily_growth g = mean_float64 (List.tl (daily_growth g))
    /\ overall_growth_rate g
       = ((float_of_Z (List.last (saves g) 0%Z)
           / float_of_Z (List.hd 0%Z (saves g)) - 1) * 100)%float
    /\ (saves g = [100; 150; 135] ->
        daily_growth g = [0; 50; -15]%float
        /\ growth_rate g = [0; 50; -0x1.3ffffffffffffp+3]%float
        /\ total_growth g = 35
        /\ avg_daily_growth g = 17.5%float
        /\ overall_growth_rate g = 0x1.1800000000001p+5%float
        /\ Forall2 (fun x y => (abs (x - y) <? 0x1p-46)%float = true)
             (overall_growth_rate g :: growth_rate g) [35; 0; 50; -10]%float).
Proof.
  intros Hlen Hdate Hsaves Hint.
  set (sorted := fold_right insert_row [] (rows hist_df)).
  assert (Hperm : sorted ≡ₚ rows hist_df) by apply sort_rows_perm.
  destruct (int64_cells_Some (map (cell "saves") sorted)) as (s & Hs & Hcells).
  { apply Forall_map. by rewrite Hperm. }
  assert (Hls : length s = len hist_df).
  { unfold len. rewrite <- Hperm.
    rewrite <- (length_map (cell "saves") sorted), Hcells. by rewrite length_map. }
  eexists (mkGrowth _ s _ _ _ _ _ _), sorted.
  split.
  { unfold growth_tracking, sort_values_date, column_values.
    rewrite (proj2 (has_column_true _ _) Hdate).
    destruct (1 <? len hist_df)%nat eqn:Hlt; [| apply Nat.ltb_ge in Hlt; lia].
    unfold has_column. simpl. fold sorted.
    rewrite (bool_decide_eq_true_2 _ Hsaves), Hs. simpl.
    reflexivity. }
  simpl.
  split; [done |]. split; [apply sort_rows_sorted |].
  split; [done |]. split; [done |].
  split; [unfold len; simpl; by rewrite Hperm |].
  split; [done |].
  split; [by rewrite length_map, length_diff |].
  split; [by rewrite !length_map, length_pct_change |].
  assert (Hne : exists x later, s = x :: later).
  { destruct s as [|x later]; [simpl in Hls; lia | eauto]. }
  destruct Hne as (x & later & Hxl).
  split; [by rewrite Hxl |]. split; [by rewrite Hxl |].
  split.
  { intros i prev cur Hp Hc. split.
    - rewrite list_lookup_fmap, (lookup_diff s i prev cur Hp Hc). simpl.
      by rewrite fillna0_float_of_Z.
    - by rewrite !list_lookup_fmap, (lookup_pct_change s i prev cur Hp Hc). }
  split; [done |].
  split; [apply wrap64_small |].
  split; [by destruct (map fillna0 (diff s)) |].
  split; [done |].
  intros ->. vm_compute. repeat split; repeat constructor.
Qed.

Lemma growth_tracking_trends_witness :
  exists g,
    growth_tracking (followers 135) example_history
    = Some (Return (GrowthCharts g))
    /\ saves g = [100; 150; 135]
    /\ daily_growth g = [0; 50; -15]%float
    /\ growth_rate g = [0; 50; -0x1.3ffffffffffffp+3]%float
    /\ total_growth g = 35
    /\ days_tracked g = 3%nat.
Proof.
  destruct (growth_tracking_trends (followers 135) example_history)
    as (g & sorted & Hrun & _ & _ & _ & _ & Hdays & _ & _ & _ & _ & _ & _ & _
        & _ & _ & _ & Hexample).
  - unfold len. simpl. lia.
  - apply list_elem_of_here.
  - apply list_elem_of_further, list_elem_of_here.
  - repeat constructor; eexists; vm_compute; reflexivity.
  - exists g.
    assert (Hs : saves g = [100; 150; 135]).
    { vm_compute in Hrun. by injection Hrun as <-. }
    destruct (Hexample Hs) as (Hd & Hr & Ht & _).
    repeat split; try done.
Defined.

(** * Further facts about the accumulator *)

Section Clock.

Lemma ns_per_day_pos : 0 < ns_per_day.
Proof. reflexivity. Qed.

Lemma normalize_eq ts : normalize ts = ns_per_day * (ts / ns_per_day).
Proof.
  unfold normalize. pose proof (Z.div_mod ts ns_per_day) as H.
  pose proof ns_per_day_pos. lia.
Qed.

Lemma normalize_midnight ts : midnight (normalize ts).
Proof.
  unfold midnight. rewrite normalize_eq, Z.mul_comm. apply Z.mod_mul.
  pose proof ns_per_day_pos. lia.
Qed.

Lemma normalize_mono a b : a <= b -> normalize a <= normalize b.
Proof.
  intros H. rewrite !normalize_eq.
  apply Z.mul_le_mono_nonneg_l; [pose proof ns_per_day_pos; lia |].
  apply Z.div_le_mono; [apply ns_per_day_pos | done].
Qed.

End Clock.


(** X1: history is append-only.  A successful call either leaves the
    store as it is, or saves the two tables it loaded with new records at
    the end: one playlist record, and one track record per track of the
    snapshot.  Every record loaded is saved at its position, with the
    cells it was loaded with under [date], [saves] and [total_tracks] in
    the playlist table and under [date], [track_id], [name], [artist] and
    [popularity] in the track table.  What is kept is the table as
    loaded: the cells are read from the file again on every call. *)
Theorem update_daily_stats_append_only now playlist_info
    (tracks_df : list TrackRow) fs res fs' :
  update_daily_stats now playlist_info tracks_df fs = (Return res, fs') ->
  fs' = fs
  \/ exists hist_df track_hist_df,
       load_historical_data fs = (Return hist_df, fs)
       /\ load_track_history fs = (Return track_hist_df, fs)
       /\ len (playlist_table fs') = S (len hist_df)
       /\ len (track_table fs') = (len track_hist_df + length tracks_df)%nat
       /\ (forall (i : nat) r c,
             rows hist_df !! i = Some r -> c ∈ columns hist_df ->
             c ∈ ["date"; "saves"; "total_tracks"] ->
             exists r',
               rows (playlist_table fs') !! i = Some r' /\ cell c r' = cell c r)
       /\ (forall (i : nat) r c,
             rows track_hist_df !! i = Some r -> c ∈ columns track_hist_df ->
             c ∈ ["date"; "track_id"; "name"; "artist"; "popularity"] ->
             exists r',
               rows (track_table fs') !! i = Some r' /\ cell c r' = cell c r).
Proof.
  intros Hrun.
  apply update_daily_stats_Return in Hrun as (Hd1 & Hd2 & Hcase). simpl in Hcase.
  destruct Hcase as [(_ & _ & ->) | (_ & _ & Happ)]; [by left | right].
  exists (playlist_table fs), (track_table fs).
  split; [by apply load_historical_data_ok |].
  split; [by apply load_track_history_ok |].
  destruct res as [hist' trk']. symmetry in Happ.
  destruct (appended_tables _ _ _ _ _ _ _ _ _ Happ) as [Hp Ht].
  unfold appended in Happ. injection Happ as Eh Et _.
  rewrite Hp, Ht, <- Eh, <- Et. clear.
  assert (Hkeep : forall a b (i : nat) r c,
             rows a !! i = Some r -> c ∈ columns a ->
             exists r', rows (concat a b) !! i = Some r' /\ cell c r' = cell c r).
  { intros a b i r c Hi Hc. exists (reindex (columns (concat a b)) r). split.
    - unfold concat. cbn [rows columns]. rewrite list_lookup_fmap.
      by rewrite lookup_app_l, Hi by (by eapply lookup_lt_Some).
    - apply cell_reindex. unfold concat. cbn [columns].
      apply elem_of_union_columns. by left. }
  split; [| split; [| split]].
  - unfold len, concat, new_row. cbn [rows].
    rewrite length_map, length_app. simpl. lia.
  - unfold len, concat, today_tracks, set_column, selected_columns. cbn [rows].
    by rewrite !length_map, !length_app, !length_map.
  - intros i r c Hi Hc _. by apply Hkeep.
  - intros i r c Hi Hc _. by apply Hkeep.
Qed.

Lemma update_daily_stats_append_only_witness :
  len (playlist_table after_second_day) = 2%nat
  /\ len (track_table after_second_day) = 3%nat
  /\ exists r,
       rows (playlist_table after_second_day) !! 0%nat = Some r
       /\ cell "date" r = VTimestamp june_1_2024
       /\ cell "saves" r = VInt 10.
Proof.
  assert (Hrun : update_daily_stats (june_1_2024 + 33 * 3600 * 1000000000)
                   (followers 12) [sample_track; sample_track] after_first_call
                 = (Return (playlist_table after_second_day,
                            track_table after_second_day), after_second_day))
    by (vm_compute; reflexivity).
  destruct (update_daily_stats_append_only _ _ _ _ _ _ Hrun)
    as [Hsame | (hist_df & track_hist_df & Hl1 & Hl2 & Hn1 & Hn2 & Hk & _)].
  { apply (f_equal (fun fs => length (written fs))) in Hsame.
    vm_compute in Hsame. discriminate Hsame. }
  assert (Hhist : hist_df = playlist_table after_first_call).
  { rewrite load_historical_data_ok in Hl1; [congruence |].
    vm_compute. apply list_elem_of_here. }
  assert (Htrk : track_hist_df = track_table after_first_call).
  { rewrite load_track_history_ok in Hl2; [congruence |].
    vm_compute. apply list_elem_of_here. }
  subst hist_df track_hist_df.
  split; [rewrite Hn1; reflexivity |].
  split; [rewrite Hn2; reflexivity |].
  destruct (rows (playlist_table after_first_call) !! 0%nat) as [r|] eqn:Hr;
    [| vm_compute in Hr; discriminate Hr].
  destruct (Hk 0%nat r "date" Hr) as (r1 & Hr1 & Hdate);
    [vm_compute; apply list_elem_of_here | apply list_elem_of_here |].
  destruct (Hk 0%nat r "saves" Hr) as (r2 & Hr2 & Hsaves);
    [vm_compute; apply list_elem_of_further, list_elem_of_here
    | apply list_elem_of_further, list_elem_of_here |].
  rewrite Hr1 in Hr2. injection Hr2 as <-.
  exists r1. split; [exact Hr1 |].
  vm_compute in Hr. injection Hr as <-.
  split; [rewrite Hdate | rewrite Hsaves]; vm_compute; reflexivity.
Defined.

Lemma lookup_concat_l a b (i : nat) r :
  rows a !! i = Some r ->
  rows (concat a b) !! i = Some (reindex (columns (concat a b)) r).
Proof.
  intros Hi. unfold concat. cbn [rows columns]. rewrite list_lookup_fmap.
  by rewrite lookup_app_l, Hi by (by eapply lookup_lt_Some).
Qed.

Lemma lookup_concat_r a b (i : nat) r :
  rows b !! i = Some r ->
  rows (concat a b) !! (len a + i)%nat
  = Some (reindex (columns (concat a b)) r).
Proof.
  intros Hi. unfold concat, len. cbn [rows columns]. rewrite list_lookup_fmap.
  rewrite lookup_app_r by lia.
  replace (length (rows a) + i - length (rows a))%nat with i by lia.
  by rewrite Hi.
Qed.

Lemma elem_of_columns_concat_r a b c :
  c ∈ columns b -> c ∈ columns (concat a b).
Proof. intros H. unfold concat. cbn [columns]. apply elem_of_union_columns. by right. Qed.

Lemma lookup_today_tracks today (tracks_df : list TrackRow) (i : nat) t :
  tracks_df !! i = Some t ->
  rows (today_tracks today (selected_columns tracks_df)) !! i
  = Some (<["date" := VTimestamp today]>
          (<["track_id" := VStr (track_id t)]>
          (<["name" := VStr (name t)]>
          (<["artist" := VStr (artist t)]>
          (<["popularity" := VInt (popularity t)]> ∅))))).
Proof.
  intros Hi. unfold today_tracks, set_column, selected_columns. cbn [rows].
  by rewrite !list_lookup_fmap, Hi.
Qed.

Lemma columns_today_tracks today tracks_df :
  columns (today_tracks today (selected_columns tracks_df))
  = ["track_id"; "name"; "artist"; "popularity"; "date"].
Proof. reflexivity. Qed.

(** X2: what an appending call records.  When no record carries today's
    date, a successful call had a snapshot with tracks; the last playlist
    record holds today's midnight, the follower count, the number of
    tracks and the mean popularity; the track table ends with one record
    per track of the snapshot, in the snapshot's order; and the playlist
    file was written before the track file. *)
Theorem update_daily_stats_appends_today now playlist_info
    (tracks_df : list TrackRow) fs res fs' :
  update_daily_stats now playlist_info tracks_df fs = (Return res, fs') ->
  count_date (normalize now) (playlist_table fs) = 0%nat ->
  tracks_df <> []
  /\ (exists r,
        rows (playlist_table fs') !! len (playlist_table fs) = Some r
        /\ cell "date" r = VTimestamp (normalize now)
        /\ cell "saves" r = VInt (followers_total playlist_info)
        /\ cell "total_tracks" r = VInt (Z.of_nat (length tracks_df))
        /\ cell "avg_popularity" r
           = VFloat (mean_int64 (map popularity tracks_df)))
  /\ (forall (i : nat) t,
        tracks_df !! i = Some t ->
        exists r,
          rows (track_table fs') !! (len (track_table fs) + i)%nat = Some r
          /\ cell "date" r = VTimestamp (normalize now)
          /\ cell "track_id" r = VStr (track_id t)
          /\ cell "name" r = VStr (name t)
          /\ cell "artist" r = VStr (artist t)
          /\ cell "popularity" r = VInt (popularity t))
  /\ written fs'
     = "track_popularity_history.csv" :: "playlist_history.csv" :: written fs.
Proof.
  intros Hrun H0.
  apply update_daily_stats_Return in Hrun as (Hd1 & Hd2 & Hcase). simpl in Hcase.
  destruct Hcase as [(Hn0 & _) | (_ & Hne & Happ)]; [done |].
  split; [done |].
  destruct res as [hist' trk']. symmetry in Happ.
  destruct (appended_tables _ _ _ _ _ _ _ _ _ Happ) as [Hp Ht].
  unfold appended in Happ. injection Happ as Eh Et Ef.
  rewrite Hp, Ht, <- Eh, <- Et, <- Ef. clear.
  set (nr := new_row (normalize now) playlist_info tracks_df
               (map popularity tracks_df)).
  set (tt := today_tracks (normalize now) (selected_columns tracks_df)).
  split; [| split; [| done]].
  - eexists. split.
    + rewrite <- (Nat.add_0_r (len (playlist_table fs))).
      by apply (lookup_concat_r _ nr 0%nat).
    + assert (Hin : forall c, c ∈ playlist_schema ->
                c ∈ columns (concat (playlist_table fs) nr))
        by (intros c Hc; by apply elem_of_columns_concat_r).
      repeat split.
      * rewrite cell_reindex by (apply Hin, list_elem_of_here).
        unfold cell. by rewrite lookup_insert_eq.
      * rewrite cell_reindex
          by (apply Hin, list_elem_of_further, list_elem_of_here).
        unfold cell. rewrite lookup_insert_ne by done.
        by rewrite lookup_insert_eq.
      * rewrite cell_reindex
          by (apply Hin; do 2 apply list_elem_of_further; apply list_elem_of_here).
        unfold cell. do 2 (rewrite lookup_insert_ne by done).
        by rewrite lookup_insert_eq.
      * rewrite cell_reindex
          by (apply Hin; do 3 apply list_elem_of_further; apply list_elem_of_here).
        unfold cell. do 3 (rewrite lookup_insert_ne by done).
        by rewrite lookup_insert_eq.
  - intros i t Hi. eexists. split.
    + apply lookup_concat_r. by apply lookup_today_tracks.
    + assert (Hin : forall c,
                c ∈ ["track_id"; "name"; "artist"; "popularity"; "date"] ->
                c ∈ columns (concat (track_table fs) tt))
        by (intros c Hc; by apply elem_of_columns_concat_r).
      repeat split.
      * rewrite cell_reindex
          by (apply Hin; do 4 apply list_elem_of_further; apply list_elem_of_here).
        unfold cell. by rewrite lookup_insert_eq.
      * rewrite cell_reindex by (apply Hin, list_elem_of_here).
        unfold cell. rewrite lookup_insert_ne by done.
        by rewrite lookup_insert_eq.
      * rewrite cell_reindex
          by (apply Hin, list_elem_of_further, list_elem_of_here).
        unfold cell. do 2 (rewrite lookup_insert_ne by done).
        by rewrite lookup_insert_eq.
      * rewrite cell_reindex
          by (apply Hin; do 2 apply list_elem_of_further; apply list_elem_of_here).
        unfold cell. do 3 (rewrite lookup_insert_ne by done).
        by rewrite lookup_insert_eq.
      * rewrite cell_reindex
          by (apply Hin; do 3 apply list_elem_of_further; apply list_elem_of_here).
        unfold cell. do 4 (rewrite lookup_insert_ne by done).
        by rewrite lookup_insert_eq.
Qed.

Lemma update_daily_stats_appends_today_witness :
  written after_first_call
  = ["track_popularity_history.csv"; "playlist_history.csv"].
Proof.
  assert (Hfirst : update_daily_stats (june_1_2024 + 9 * 3600 * 1000000000)
                     (followers 10) [sample_track] fresh
                   = (Return (playlist_table after_first_call,
                              track_table after_first_call), after_first_call))
    by (vm_compute; reflexivity).
  assert (H0 : count_date (normalize (june_1_2024 + 9 * 3600 * 1000000000))
                 (playlist_table fresh) = 0%nat) by reflexivity.
  exact (proj2 (proj2 (proj2
           (update_daily_stats_appends_today _ _ _ _ _ _ Hfirst H0)))).
Defined.

Lemma reachable_synchronized_witness :
  synchronized (playlist_table after_first_call) (track_table after_first_call)
  /\ track_dates_recorded (playlist_table after_first_call)
       (track_table after_first_call).
Proof. exact (reachable_synchronized after_first_call reachable_after_first_call). Defined.

Section Records.

Implicit Types (r : gmap string value) (cols : list string).

Lemma playlist_record_ok_reindex cols r :
  playlist_schema ⊆ cols -> playlist_record_ok r ->
  playlist_record_ok (reindex cols r).
Proof.
  intros Hsub (date & saves & total & avg & H1 & Hm & H2 & H3 & Hpos & H4).
  exists date, saves, total, avg.
  rewrite !cell_reindex; [done | | | |]; apply Hsub.
  - do 3 apply list_elem_of_further; apply list_elem_of_here.
  - do 2 apply list_elem_of_further; apply list_elem_of_here.
  - apply list_elem_of_further, list_elem_of_here.
  - apply list_elem_of_here.
Qed.

Lemma new_row_record_ok today playlist_info (tracks_df : list TrackRow) pops r :
  midnight today -> tracks_df <> [] ->
  r ∈ rows (new_row today playlist_info tracks_df pops) ->
  playlist_record_ok r.
Proof.
  intros Hm Hne Hin. unfold new_row in Hin. cbn [rows] in Hin.
  apply list_elem_of_singleton in Hin as ->.
  exists today, (followers_total playlist_info),
    (Z.of_nat (length tracks_df)), (mean_int64 pops).
  assert (Hpos : 1 <= Z.of_nat (length tracks_df))
    by (destruct tracks_df; [done | simpl; lia]).
  unfold cell.
  split; [by rewrite lookup_insert_eq |]. split; [done |].
  split; [rewrite lookup_insert_ne by done; by rewrite lookup_insert_eq |].
  split; [do 2 (rewrite lookup_insert_ne by done); by rewrite lookup_insert_eq |].
  split; [done |].
  do 3 (rewrite lookup_insert_ne by done). by rewrite lookup_insert_eq.
Qed.

End Records.

(** X4: the shape of the recorded history.  In every store reached from
    the empty working directory the playlist table has the four declared
    columns, and every record holds a midnight date, an integer saves
    count, an integer track count of at least one and a float mean: a day
    without tracks is never on record. *)
Theorem reachable_playlist_records fs :
  reachable fs ->
  columns (playlist_table fs) = playlist_schema
  /\ Forall playlist_record_ok (rows (playlist_table fs)).
Proof.
  induction 1 as [|fs now playlist_info tracks_df res fs' _ [Hcols Hok] Hrun].
  - split; [done | constructor].
  - apply update_daily_stats_Return in Hrun as (Hd1 & Hd2 & Hcase).
    simpl in Hcase.
    destruct Hcase as [(_ & _ & ->) | (_ & Hne & Happ)]; [done |].
    destruct res as [hist' trk']. symmetry in Happ.
    destruct (appended_tables _ _ _ _ _ _ _ _ _ Happ) as [-> _].
    unfold appended in Happ. injection Happ as <- _ _.
    assert (Hc : columns (concat (playlist_table fs)
                    (new_row (normalize now) playlist_info tracks_df
                       (map popularity tracks_df))) = playlist_schema).
    { unfold concat. cbn [columns]. rewrite Hcols. reflexivity. }
    split; [done |].
    unfold concat in *. cbn [rows columns] in *. rewrite Hc.
    apply Forall_fmap, Forall_app. split.
    + eapply Forall_impl; [exact Hok |]. intros r Hr.
      by apply playlist_record_ok_reindex.
    + apply Forall_forall. intros r Hr.
      apply playlist_record_ok_reindex; [done |].
      eapply new_row_record_ok; [apply normalize_midnight | exact Hne | exact Hr].
Qed.

Lemma reachable_playlist_records_witness :
  columns (playlist_table after_first_call) = playlist_schema
  /\ Forall playlist_record_ok (rows (playlist_table after_first_call)).
Proof.
  exact (reachable_playlist_records after_first_call reachable_after_first_call).
Defined.

Section Chronology.

Implicit Types (r : gmap string value) (l : list (gmap string value)).

Lemma date_lt_le a b : date_lt a b -> date_le a b.
Proof.
  intros (x & y & Ha & Hb & Hlt). unfold date_le. rewrite Ha, Hb. simpl.
  apply Z.leb_le. lia.
Qed.

Lemma date_lt_sorted_le l :
  StronglySorted date_lt l -> StronglySorted date_le l.
Proof.
  induction 1 as [|r l _ IH Hall]; constructor; [done |].
  eapply Forall_impl; [exact Hall |]. intros b. apply date_lt_le.
Qed.

(** Sorting rows that are already in date order changes nothing. *)
Lemma sort_rows_sorted_id l :
  StronglySorted date_le l -> fold_right insert_row [] l = l.
Proof.
  induction 1 as [|r l _ IH Hall]; [done |].
  simpl. rewrite IH. destruct l as [|h t]; [done |].
  simpl. apply Forall_cons in Hall as [Hh _]. unfold date_le in Hh.
  by rewrite Hh.
Qed.

Lemma date_lt_reindex cols a b :
  "date" ∈ cols -> date_lt a b -> date_lt (reindex cols a) (reindex cols b).
Proof.
  intros Hin (x & y & Ha & Hb & Hlt). exists x, y.
  by rewrite !date_key_reindex.
Qed.

Lemma runs_in_order t fs : runs t fs -> in_order t (playlist_table fs).
Proof.
  induction 1 as [t | t fs now playlist_info tracks_df res fs' _ IH Hle Hrun].
  - repeat split; [apply list_elem_of_here | constructor | constructor].
  - destruct IH as (Hd & Hs & Hb).
    pose proof (normalize_mono t now Hle) as Hmono.
    apply update_daily_stats_Return in Hrun as (Hd1 & Hd2 & Hcase).
    simpl in Hcase.
    destruct Hcase as [(_ & _ & ->) | (H0 & _ & Happ)].
    + repeat split; try done. eapply Forall_impl; [exact Hb |].
      intros r (d & Hk & Hle'). exists d. split; [done | lia].
    + destruct res as [hist' trk']. symmetry in Happ.
      destruct (appended_tables _ _ _ _ _ _ _ _ _ Happ) as [-> _].
      unfold appended in Happ. injection Happ as <- _ _.
      set (nr := new_row (normalize now) playlist_info tracks_df
                   (map popularity tracks_df)).
      assert (Hdc : "date" ∈ columns (concat (playlist_table fs) nr)).
      { unfold concat. cbn [columns]. apply elem_of_union_columns. by left. }
      assert (Hnew : forall r, r ∈ rows nr -> date_key r = Some (normalize now)).
      { intros r Hr. unfold nr, new_row in Hr. cbn [rows] in Hr.
        apply list_elem_of_singleton in Hr as ->. apply date_key_insert. }
      split; [done |]. unfold concat in *. cbn [rows columns] in *. split.
      * apply (StronglySorted_fmap _ date_lt date_lt);
          [intros a b; by apply date_lt_reindex |].
        apply StronglySorted_app_2; [| done |].
        -- intros a b Ha Hb'. rewrite Forall_forall in Hb.
           destruct (Hb a Ha) as (d & Hk & Hle').
           exists d, (normalize now). split; [done |]. split; [by apply Hnew |].
           assert (d <> normalize now).
           { intros ->. pose proof (count_date_elem _ _ a Ha Hk). lia. }
           lia.
        -- unfold nr, new_row. cbn [rows]. repeat constructor.
      * apply Forall_fmap, Forall_app. split.
        -- eapply Forall_impl; [exact Hb |].
           intros r (d & Hk & Hle'). exists d. simpl.
           rewrite date_key_reindex by done. split; [done | lia].
        -- apply Forall_forall. intros r Hr. exists (normalize now). simpl.
           rewrite date_key_reindex by done. split; [by apply Hnew | lia].
Qed.

End Chronology.

(** X5: chronological order.  When the clock never goes back between
    successful calls, the playlist table is in strictly increasing date
    order, no record is dated after the latest call's day, and sorting the
    table by date, as growth tracking does, leaves it unchanged. *)
Theorem runs_chronological t fs :
  runs t fs ->
  StronglySorted date_lt (rows (playlist_table fs))
  /\ Forall (fun r => exists d, date_key r = Some d /\ d <= normalize t)
       (rows (playlist_table fs))
  /\ sort_values_date (playlist_table fs) = Return (playlist_table fs).
Proof.
  intros Hruns. destruct (runs_in_order t fs Hruns) as (Hd & Hs & Hb).
  split; [done |]. split; [done |].
  unfold sort_values_date. rewrite (proj2 (has_column_true _ _) Hd).
  rewrite sort_rows_sorted_id.
  - by destruct (playlist_table fs).
  - by apply date_lt_sorted_le.
Qed.

Lemma runs_chronological_witness :
  sort_values_date (playlist_table after_first_call)
  = Return (playlist_table after_first_call).
Proof.
  assert (Hruns : runs (june_1_2024 + 9 * 3600 * 1000000000) after_first_call).
  { eapply (runs_update 0 fresh _ (followers 10) [sample_track]
              (playlist_table after_first_call, track_table after_first_call));
      [apply runs_fresh | vm_compute; discriminate | vm_compute; reflexivity]. }
  exact (proj2 (proj2 (runs_chronological _ _ Hruns))).
Defined.

(** * Further facts about the fetch and [main] *)

(** X6: no end of pages, no result.  When the pages the provider serves
    always point to a further page it answers (a page naming itself, a
    cycle, an endless chain), the loop over the pages is still running
    after any number of requests: [get_playlist_data] never returns and
    never raises. *)
Theorem get_playlist_data_endless sp (P : Page -> Prop) id playlist_info first :
  endless sp P ->
  playlist sp id = Return playlist_info ->
  playlist_tracks sp id = Return first -> P first ->
  forall fuel, get_playlist_data fuel sp id = None.
Proof.
  intros Hend Hp Hfirst HP fuel.
  assert (Hdrain : forall fuel p tracks, P p -> drain fuel sp p tracks = None).
  { clear -Hend. induction fuel as [|fuel IH]; intros p tracks Hp;
      destruct (Hend p Hp) as (url & q & Hn & Hg & Hq); simpl; rewrite Hn;
      [done |]. rewrite Hg. by apply IH. }
  unfold get_playlist_data, fetch_all_tracks. rewrite Hp, Hfirst.
  by rewrite Hdrain.
Qed.

Lemma get_playlist_data_endless_witness :
  get_playlist_data 1000 looping_provider playlist_id = None.
Proof.
  apply (get_playlist_data_endless looping_provider (fun p => p = looping_page)
           playlist_id (followers 10) looping_page);
    [| reflexivity | reflexivity | reflexivity].
  intros p ->. exists second_page_url, looping_page. by repeat split.
Defined.

Lemma extract_track_information_omap tracks :
  extract_track_information tracks = map track_row (omap track tracks).
Proof.
  induction tracks as [|item tracks IH]; [done |].
  rewrite extract_track_information_cons. simpl.
  destruct (track item); simpl; by rewrite IH.
Qed.

(** The data a provider with a finite chain of pages yields. *)
Lemma get_playlist_data_walk sp id playlist_info first later fuel :
  playlist sp id = Return playlist_info ->
  playlist_tracks sp id = Return first ->
  walk sp first later None -> (length later <= fuel)%nat ->
  get_playlist_data fuel sp id
  = Some (Return (playlist_info,
                  map track_row (omap track (pages_items (first :: later))))).
Proof.
  intros Hp Hfirst Hwalk Hfuel. unfold get_playlist_data, fetch_all_tracks.
  rewrite Hp, Hfirst.
  rewrite (drain_walk sp first later None Hwalk) by (simpl; lia).
  by rewrite extract_track_information_omap.
Qed.

(** X7: fetch and normalizer together.  For a provider that serves the
    playlist in a finite chain of pages, [get_playlist_data] returns the
    playlist object as sent and one row per item with a track, over all
    pages in page order; the frame has as many rows as there are such
    items, at most the number of items, and it is the frame without
    columns exactly when every item's track is null. *)
Theorem get_playlist_data_rows sp id playlist_info first later fuel :
  playlist sp id = Return playlist_info ->
  playlist_tracks sp id = Return first ->
  walk sp first later None -> (length later <= fuel)%nat ->
  exists tracks_df : list TrackRow,
    get_playlist_data fuel sp id = Some (Return (playlist_info, tracks_df))
    /\ tracks_df = map track_row (omap track (pages_items (first :: later)))
    /\ length tracks_df
       = length (List.filter (fun item => bool_decide (track item <> None))
                   (pages_items (first :: later)))
    /\ (length tracks_df <= length (pages_items (first :: later)))%nat
    /\ (tracks_columns tracks_df = []
        <-> Forall (fun item => track item = None) (pages_items (first :: later))).
Proof.
  intros Hp Hfirst Hwalk Hfuel. eexists. split; [by apply get_playlist_data_walk |].
  split; [done |]. generalize (pages_items (first :: later)). clear.
  intros l. rewrite length_map.
  assert (Hlen : length (omap track l)
                 = length (List.filter (fun item => bool_decide (track item <> None)) l)).
  { induction l as [|item l IH]; [done |]. cbn [omap list_omap List.filter].
    fold (omap track l). destruct (track item) as [t|]; simpl; by rewrite IH. }
  split; [done |]. split.
  - rewrite Hlen. apply List.filter_length_le.
  - clear Hlen. induction l as [|item l IH]; simpl.
    + split; [constructor | done].
    + destruct (track item) eqn:Ht; simpl.
      * split; [done |]. intros H. apply Forall_cons in H as [H _]. congruence.
      * rewrite IH. split; [by constructor |].
        intros H. by apply Forall_cons in H as [_ H].
Qed.

Lemma get_playlist_data_rows_witness :
  exists tracks_df : list TrackRow,
    get_playlist_data 1 two_page_provider playlist_id
    = Some (Return (followers 10, tracks_df))
    /\ length tracks_df = 2%nat.
Proof.
  assert (Hw : walk two_page_provider first_page [second_page] None).
  { eapply walk_next; [reflexivity | reflexivity |].
    apply walk_last. reflexivity. }
  assert (Hlen : (length [second_page] <= 1)%nat) by (simpl; lia).
  destruct (get_playlist_data_rows two_page_provider playlist_id (followers 10)
              first_page [second_page] 1 eq_refl eq_refl Hw Hlen)
    as (tracks_df & Hrun & _ & Hn & _).
  exists tracks_df. split; [exact Hrun | exact Hn].
Defined.

(** X8: a playlist without available tracks.  When the provider serves a
    finite chain of pages whose items all have a null track (or no item
    at all) and today is not yet on record, [main] ends with the uncaught
    [KeyError: 'popularity'] of [update_daily_stats], not with the
    message of the fetch handler, and the store is left as it was. *)
Theorem main_no_available_track sp playlist_info first later fuel now fs :
  playlist sp playlist_id = Return playlist_info ->
  playlist_tracks sp playlist_id = Return first ->
  walk sp first later None -> (length later <= fuel)%nat ->
  Forall (fun item => track item = None) (pages_items (first :: later)) ->
  "date" ∈ columns (playlist_table fs) -> "date" ∈ columns (track_table fs) ->
  count_date (normalize now) (playlist_table fs) = 0%nat ->
  main fuel sp now fs = Some (Raise (KeyError "popularity"), fs).
Proof.
  intros Hp Hfirst Hwalk Hfuel Hnull Hd1 Hd2 H0. unfold main.
  rewrite (get_playlist_data_walk sp playlist_id playlist_info first later fuel)
    by done.
  assert (omap track (pages_items (first :: later)) = []) as ->.
  { induction (pages_items (first :: later)) as [|item l IH]; [done |].
    apply Forall_cons in Hnull as [Hi Hl]. simpl. rewrite Hi. by apply IH. }
  simpl.
  pose proof (update_daily_stats_cases now playlist_info [] fs) as H.
  simpl in H.
  rewrite (load_historical_data_ok _ Hd1), (load_track_history_ok _ Hd2) in H.
  rewrite today_recorded_count, H0 in H by done. simpl in H.
  by rewrite H.
Qed.

Lemma main_no_available_track_witness :
  main 0 unavailable_provider (june_1_2024 + 24 * 3600 * 1000000000)
    after_first_call
  = Some (Raise (KeyError "popularity"), after_first_call).
Proof.
  apply (main_no_available_track unavailable_provider (followers 10)
           {| items := [ {| track := None |}; {| track := None |} ];
              next := None |} [] 0).
  - reflexivity.
  - reflexivity.
  - apply walk_last. reflexivity.
  - simpl. lia.
  - repeat constructor.
  - vm_compute. apply list_elem_of_here.
  - vm_compute. apply list_elem_of_here.
  - vm_compute. reflexivity.
Defined.



(** * [get_playlist_id] *)

Section Split.

Variable sep : Ascii.ascii.

Lemma split_nonempty s : split sep s <> [].
Proof.
  destruct s as [|c rest]; simpl; [done |].
  destruct (bool_decide (c = sep)); [done |].
  by destruct (split sep rest).
Qed.

Lemma split_without_sep s : occurs sep s = false -> split sep s = [s].
Proof.
  induction s as [|c rest IH]; simpl; [done |].
  intros H. apply orb_false_iff in H as [Hc Hrest].
  rewrite Hc. by rewrite IH.
Qed.

Lemma split_append a b :
  occurs sep a = false -> split sep (a +:+ String sep b) = a :: split sep b.
Proof.
  induction a as [|c rest IH]; simpl.
  - intros _. by rewrite bool_decide_eq_true_2.
  - intros H. apply orb_false_iff in H as [Hc Hrest].
    rewrite Hc. by rewrite IH.
Qed.

Lemma split_append_any a b :
  exists seg pre, split sep (a +:+ String sep b) = (seg :: pre) ++ split sep b.
Proof.
  induction a as [|c rest (seg & pre & IH)]; simpl.
  - exists "", []. by rewrite bool_decide_eq_true_2.
  - rewrite IH. destruct (bool_decide (c = sep)).
    + by exists "", (seg :: pre).
    + by exists (String c seg), pre.
Qed.

Lemma last_app_nonempty (l1 l2 : list string) d :
  l2 <> [] -> List.last (l1 ++ l2) d = List.last l2 d.
Proof.
  intros Hne. induction l1 as [|x l1 IH]; [done |].
  simpl. rewrite IH. destruct (l1 ++ l2) eqn:E; [| done].
  apply app_eq_nil in E as [_ ->]. done.
Qed.

Lemma last_split_append a b d :
  List.last (split sep (a +:+ String sep b)) d = List.last (split sep b) d.
Proof.
  destruct (split_append_any a b) as (seg & pre & ->).
  apply last_app_nonempty, split_nonempty.
Qed.

(** A character absent from a string is absent from its segments. *)
Lemma split_occurs c s :
  occurs c s = false -> Forall (fun seg => occurs c seg = false) (split sep s).
Proof.
  induction s as [|c' rest IH]; simpl; [by repeat constructor |].
  intros H. apply orb_false_iff in H as [Hc Hrest]. specialize (IH Hrest).
  destruct (bool_decide (c' = sep)); [by constructor |].
  destruct (split sep rest) as [|seg segs]; [by repeat constructor; simpl; rewrite Hc |].
  apply Forall_cons in IH as [Hseg Hsegs]. constructor; [| done].
  simpl. by rewrite Hc, Hseg.
Qed.

(** No segment holds the separator. *)
Lemma split_segments s : Forall (fun seg => occurs sep seg = false) (split sep s).
Proof.
  induction s as [|c rest IH]; simpl; [by repeat constructor |].
  destruct (bool_decide (c = sep)) eqn:Hc; [by constructor |].
  destruct (split sep rest) as [|seg segs]; [by repeat constructor; simpl; rewrite Hc |].
  apply Forall_cons in IH as [Hseg Hsegs]. constructor; [| done].
  simpl. by rewrite Hc, Hseg.
Qed.

End Split.

Lemma occurs_append c a b : occurs c (a +:+ b) = occurs c a || occurs c b.
Proof.
  induction a as [|c' rest IH]; simpl; [done |]. by rewrite IH, orb_assoc.
Qed.

Lemma Forall_last {A} (P : A -> Prop) (l : list A) d :
  Forall P l -> P d -> P (List.last l d).
Proof.
  induction 1 as [|x l Hx _ IH]; [done |]. intros Hd. simpl.
  destruct l; [done | by apply IH].
Qed.

(** X10: what [get_playlist_id] extracts.  From a URL that ends in a slash,
    an id and possibly a question mark and a query, it returns the id,
    provided the id holds neither character and the query no slash; a
    string that holds neither character is returned whole. *)
Theorem get_playlist_id_extracts base id query :
  occurs "/" id = false -> occurs "?" id = false -> occurs "/" query = false ->
  get_playlist_id (base +:+ "/" +:+ id) = id
  /\ get_playlist_id (base +:+ "/" +:+ id +:+ "?" +:+ query) = id
  /\ get_playlist_id id = id.
Proof.
  intros Hs Hq Hqs. unfold get_playlist_id.
  change ("/" +:+ ?x) with (String "/" x).
  change ("?" +:+ ?x) with (String "?" x).
  rewrite !last_split_append.
  rewrite (split_without_sep "/" id Hs). cbn [List.last].
  rewrite (split_without_sep "?" id Hq). cbn [List.hd].
  split; [done |]. split; [| done].
  rewrite (split_without_sep "/" (id +:+ String "?" query)).
  - cbn [List.last]. by rewrite split_append.
  - rewrite occurs_append. simpl. by rewrite Hs, Hqs.
Qed.

Lemma get_playlist_id_extracts_witness :
  get_playlist_id
    "https://open.spotify.com/playlist/4fdUWePS7vpy3r1GiZtv1L?si=0a1b2c3d"
  = "4fdUWePS7vpy3r1GiZtv1L".
Proof.
  exact (proj1 (proj2 (get_playlist_id_extracts
           "https://open.spotify.com/playlist" "4fdUWePS7vpy3r1GiZtv1L"
           "si=0a1b2c3d" eq_refl eq_refl eq_refl))).
Defined.

(** X11: what [get_playlist_id] never returns.  For every URL the result
    holds neither a slash nor a question mark; a URL that ends with a
    slash gives the empty id. *)
Theorem get_playlist_id_separators url :
  occurs "/" (get_playlist_id url) = false
  /\ occurs "?" (get_playlist_id url) = false
  /\ get_playlist_id (url +:+ "/") = "".
Proof.
  unfold get_playlist_id.
  assert (Hlast : occurs "/" (List.last (split "/" url) "") = false).
  { apply (Forall_last (fun seg => occurs "/" seg = false));
      [apply split_segments | done]. }
  set (seg := List.last (split "/" url) "") in *.
  pose proof (split_occurs "?" "/" seg Hlast) as H1.
  pose proof (split_segments "?" seg) as H2.
  pose proof (split_nonempty "?" seg) as Hne.
  destruct (split "?" seg) as [|x l]; [done |].
  apply Forall_cons in H1 as [H1 _]. apply Forall_cons in H2 as [H2 _].
  split; [done |]. split; [done |].
  change (url +:+ "/") with (url +:+ String "/" "").
  by rewrite last_split_append.
Qed.

(** * The popularity and analysis tabs *)

Section TopTracks.

Implicit Types (t : TrackRow) (l : list TrackRow).

Lemma insert_by_popularity_perm t l : insert_by_popularity t l ≡ₚ t :: l.
Proof.
  induction l as [|h rest IH]; simpl; [done |].
  destruct (popularity h <=? popularity t); [done |].
  rewrite IH. apply Permutation_swap.
Qed.

Lemma insert_by_popularity_sorted t l :
  StronglySorted at_least_as_popular l ->
  StronglySorted at_least_as_popular (insert_by_popularity t l).
Proof.
  induction 1 as [|h rest Hs IH Hall]; simpl.
  - repeat constructor.
  - destruct (Z.leb_spec (popularity h) (popularity t)) as [Hle|Hlt].
    + constructor; [by constructor |]. constructor; [done |].
      eapply Forall_impl; [exact Hall |].
      unfold at_least_as_popular. intros x Hx. lia.
    + constructor; [done |]. rewrite insert_by_popularity_perm.
      constructor; [| done]. unfold at_least_as_popular. lia.
Qed.

Lemma sort_by_popularity_perm l : fold_right insert_by_popularity [] l ≡ₚ l.
Proof.
  induction l as [|t l IH]; simpl; [done |].
  by rewrite insert_by_popularity_perm, IH.
Qed.

Lemma sort_by_popularity_sorted l :
  StronglySorted at_least_as_popular (fold_right insert_by_popularity [] l).
Proof.
  induction l as [|t l IH]; simpl; [constructor |].
  by apply insert_by_popularity_sorted.
Qed.

End TopTracks.

(** X12: the top tracks of the popularity tab.  For a snapshot with tracks,
    [top_tracks] holds the smaller of 20 and the number of tracks, listed
    by non-increasing popularity; together with the tracks left out it is
    the snapshot again, and no track left out is more popular than one
    that is shown.  For a snapshot without tracks it is a [KeyError]. *)
Theorem top_tracks_most_popular (tracks_df : list TrackRow) :
  tracks_df <> [] ->
  exists top left_out,
    top_tracks tracks_df = Return top
    /\ length top = Nat.min 20 (length tracks_df)
    /\ StronglySorted at_least_as_popular top
    /\ top ++ left_out ≡ₚ tracks_df
    /\ (forall shown other,
          shown ∈ top -> other ∈ left_out -> popularity other <= popularity shown)
    /\ top_tracks [] = Raise (KeyError "popularity").
Proof.
  intros Hne.
  set (sorted := fold_right insert_by_popularity [] tracks_df).
  exists (take 20 sorted), (drop 20 sorted).
  pose proof (sort_by_popularity_perm tracks_df) as Hperm.
  pose proof (sort_by_popularity_sorted tracks_df) as Hsorted.
  fold sorted in Hperm, Hsorted.
  rewrite <- (take_drop 20 sorted) in Hsorted.
  apply StronglySorted_app in Hsorted as (Hcross & Htop & _).
  split; [by destruct tracks_df |].
  split; [by rewrite length_take, Hperm |].
  split; [done |].
  split; [by rewrite take_drop |].
  split; [| done].
  intros shown other Hs Ho. exact (Hcross shown other Hs Ho).
Qed.

Lemma top_tracks_most_popular_witness :
  exists top,
    top_tracks sample_snapshot = Return top
    /\ map popularity top = [70; 50; 50].
Proof.
  destruct (top_tracks_most_popular sample_snapshot) as (top & rest & Hrun & _);
    [discriminate |].
  exists top. split; [exact Hrun |].
  vm_compute in Hrun. by injection Hrun as <-.
Defined.

Section Int.

Lemma is_digit_facts c :
  is_digit c = true ->
  is_space c = false /\ is_underscore c = false
  /\ c <> "-"%char /\ c <> "+"%char
  /\ 0 <= Z.of_nat (nat_of_ascii c) - 48 <= 9.
Proof.
  unfold is_digit, is_space, is_underscore. intros H.
  apply andb_true_iff in H as [H1 H2].
  apply Nat.leb_le in H1, H2.
  repeat split.
  - apply orb_false_iff. split.
    + apply andb_false_iff. right. apply Nat.leb_gt. lia.
    + apply Nat.eqb_neq. lia.
  - apply bool_decide_eq_false_2. intros ->. vm_compute in H2. lia.
  - intros ->. vm_compute in H1. lia.
  - intros ->. vm_compute in H1. lia.
  - lia.
  - lia.
Qed.

Lemma digit_run_digits s :
  all_digits s = true -> digit_run s = (s, "").
Proof.
  induction s as [|c rest IH]; simpl; [done |].
  intros H. apply andb_true_iff in H as [Hc Hrest].
  rewrite Hc. simpl. by rewrite IH.
Qed.

Lemma underscores_between_digits_digits s prev :
  all_digits s = true -> underscores_between_digits prev s = true.
Proof.
  revert prev. induction s as [|c rest IH]; intros prev; simpl; [done |].
  intros H. apply andb_true_iff in H as [Hc Hrest].
  destruct (is_digit_facts c Hc) as (_ & -> & _). by apply IH.
Qed.

Lemma decimal_bounds s acc :
  all_digits s = true -> 0 <= acc ->
  0 <= decimal acc s < (acc + 1) * 10 ^ Z.of_nat (String.length s).
Proof.
  revert acc. induction s as [|c rest IH]; intros acc Hs Hacc.
  - simpl. lia.
  - simpl in Hs. apply andb_true_iff in Hs as [Hc Hrest].
    destruct (is_digit_facts c Hc) as (_ & _ & _ & _ & Hd).
    cbn [decimal String.length]. rewrite Hc.
    specialize (IH (10 * acc + (Z.of_nat (nat_of_ascii c) - 48)) Hrest).
    rewrite Nat2Z.inj_succ, Z.pow_succ_r by lia.
    assert (0 < 10 ^ Z.of_nat (String.length rest)) by (apply Z.pow_pos_nonneg; lia).
    split; [lia |]. nia.
Qed.

Lemma occurs_digits c s :
  is_digit c = false -> all_digits s = true -> occurs c s = false.
Proof.
  intros Hc. induction s as [|c' rest IH]; simpl; [done |].
  intros H. apply andb_true_iff in H as [Hc' Hrest].
  rewrite IH by done. rewrite orb_false_r.
  apply bool_decide_eq_false_2. intros ->. congruence.
Qed.

(** [int] reads a non-empty string of digits as the number it writes. *)
Lemma int_digits s :
  s <> "" -> all_digits s = true -> int s = Return (decimal 0 s).
Proof.
  intros Hne Hs. destruct s as [|c rest]; [done |].
  pose proof Hs as Hs'. simpl in Hs'. apply andb_true_iff in Hs' as [Hc Hrest].
  destruct (is_digit_facts c Hc) as (Hsp & _ & Hm & Hp & _).
  unfold int. cbn [lstrip]. rewrite Hsp.
  assert (Hsign : match String c rest with
                  | String "-" r => (true, r)
                  | String "+" r => (false, r)
                  | _ => (false, String c rest)
                  end = (false, String c rest)).
  { destruct c as [[] [] [] [] [] [] [] []]; try done. }
  rewrite Hsign, (digit_run_digits _ Hs).
  by rewrite underscores_between_digits_digits.
Qed.

Lemma length_append (a b : string) :
  String.length (a +:+ b) = (String.length a + String.length b)%nat.
Proof. induction a as [|c rest IH]; simpl; [done | by rewrite IH]. Qed.

(** The year of a release date in one of the provider's precisions. *)
Lemma extract_year_year year rest :
  String.length year = 4%nat -> all_digits year = true ->
  extract_year (Some year) = Return (Some (decimal 0 year))
  /\ extract_year (Some (year +:+ "-" +:+ rest))
     = Return (Some (decimal 0 year)).
Proof.
  intros Hlen Hd.
  assert (Hne : year <> "") by (intros ->; done).
  unfold extract_year. rewrite Hlen. simpl.
  rewrite (int_digits year Hne Hd). split; [done |].
  change ("-" +:+ rest) with (String "-" rest).
  rewrite length_append, Hlen. cbn [String.length Nat.add Nat.eqb].
  rewrite split_append by (by apply occurs_digits).
  cbn [List.hd]. by rewrite (int_digits year Hne Hd).
Qed.

End Int.

(** X13: the release year.  A year of four digits is read the same whether
    the release date is the year alone or the year followed by a hyphen
    and anything else (a month, a month and a day); it lies between 0 and
    9999.  A missing date gives no year and no error; an empty date is a
    [ValueError]. *)
Theorem extract_year_precisions year rest :
  String.length year = 4%nat -> all_digits year = true ->
  extract_year (Some year) = Return (Some (decimal 0 year))
  /\ extract_year (Some (year +:+ "-" +:+ rest)) = Return (Some (decimal 0 year))
  /\ 0 <= decimal 0 year <= 9999
  /\ extract_year None = Return None
  /\ extract_year (Some "")
     = Raise (ValueError "invalid literal for int() with base 10").
Proof.
  intros Hlen Hd. destruct (extract_year_year year rest Hlen Hd) as [H1 H2].
  split; [done |]. split; [done |]. split; [| done].
  pose proof (decimal_bounds year 0 Hd) as Hb. rewrite Hlen in Hb.
  change (10 ^ Z.of_nat 4) with 10000 in Hb. lia.
Qed.

Lemma extract_year_precisions_witness :
  extract_year (Some "2020") = Return (Some 2020)
  /\ extract_year (Some "2020-01-24") = Return (Some 2020).
Proof.
  destruct (extract_year_precisions "2020" "01-24" eq_refl eq_refl)
    as (H1 & H2 & _).
  split; [exact H1 | exact H2].
Defined.

Section Counts.

Implicit Types (counts : list (Z * nat)) (s : list Z).

Lemma sum_count_count_value z y counts :
  sum_count z (count_value y counts)
  = (let here := if z =? y then 1%nat else 0%nat in
     (here + sum_count z counts)%nat).
Proof.
  cbv zeta. induction counts as [|[y' k] rest IH]; simpl; [lia |].
  destruct (Z.ltb_spec y y') as [Hlt|Hge]; simpl; [done |].
  destruct (Z.eqb_spec y y') as [<-|Hne]; simpl.
  - destruct (z =? y); lia.
  - rewrite IH. destruct (z =? y), (z =? y'); lia.
Qed.

Lemma sum_count_value_counts z s :
  sum_count z (value_counts_sort_index s) = occurrences z s.
Proof.
  unfold value_counts_sort_index, occurrences.
  induction s as [|y s IH]; simpl; [done |].
  rewrite sum_count_count_value, IH. cbv zeta.
  rewrite (Z.eqb_sym z y). by destruct (y =? z).
Qed.

Lemma count_value_keys (P : Z -> Prop) y counts :
  P y -> Forall (fun e => P e.1) counts ->
  Forall (fun e => P e.1) (count_value y counts).
Proof.
  intros Hy. induction 1 as [|[y' k] rest Hh Hall IH]; simpl.
  - by repeat constructor.
  - destruct (y <? y'); [by repeat constructor |].
    destruct (y =? y'); by constructor.
Qed.

Lemma count_value_sorted y counts :
  StronglySorted keys_increase counts ->
  StronglySorted keys_increase (count_value y counts).
Proof.
  induction 1 as [|[y' k] rest Hs IH Hall]; simpl.
  - repeat constructor.
  - destruct (Z.ltb_spec y y') as [Hlt|Hge].
    + constructor; [by constructor |]. constructor; [exact Hlt |].
      eapply Forall_impl; [exact Hall |].
      unfold keys_increase. simpl. intros e He. lia.
    + destruct (Z.eqb_spec y y') as [<-|Hne].
      * by constructor.
      * constructor; [exact IH |].
        apply (count_value_keys (fun z => y' < z)); [lia | exact Hall].
Qed.

Lemma value_counts_sorted s :
  StronglySorted keys_increase (value_counts_sort_index s).
Proof.
  unfold value_counts_sort_index.
  induction s as [|y s IH]; simpl; [constructor | by apply count_value_sorted].
Qed.

Lemma count_value_positive y counts :
  Forall (fun e => (1 <= e.2)%nat) counts ->
  Forall (fun e => (1 <= e.2)%nat) (count_value y counts).
Proof.
  induction 1 as [|[y' k] rest Hh Hall IH]; simpl.
  - by repeat constructor.
  - destruct (y <? y'); [by repeat constructor |].
    destruct (y =? y'); constructor; simpl in *; try done. lia.
Qed.

Lemma value_counts_positive s :
  Forall (fun e => (1 <= e.2)%nat) (value_counts_sort_index s).
Proof.
  unfold value_counts_sort_index.
  induction s as [|y s IH]; simpl; [constructor | by apply count_value_positive].
Qed.

Lemma sum_list_count_value y counts :
  sum_list (map snd (count_value y counts)) = S (sum_list (map snd counts)).
Proof.
  induction counts as [|[y' k] rest IH]; simpl; [done |].
  destruct (y <? y'); simpl; [done |].
  destruct (y =? y'); simpl; [done |]. rewrite IH. lia.
Qed.

Lemma sum_list_value_counts s :
  sum_list (map snd (value_counts_sort_index s)) = length s.
Proof.
  unfold value_counts_sort_index.
  induction s as [|y s IH]; simpl; [done |].
  by rewrite sum_list_count_value, IH.
Qed.

Lemma sum_count_absent z counts :
  Forall (fun e => z < e.1) counts -> sum_count z counts = 0%nat.
Proof.
  induction 1 as [|[y k] rest Hh Hall IH]; simpl; [done |].
  simpl in Hh. destruct (Z.eqb_spec z y); [lia | done].
Qed.

Lemma sum_count_sorted z n counts :
  StronglySorted keys_increase counts ->
  (z, n) ∈ counts -> sum_count z counts = n.
Proof.
  induction 1 as [|[y k] rest Hs IH Hall]; intros Hin.
  - by apply elem_of_nil in Hin.
  - apply elem_of_cons in Hin as [[= -> ->] | Hin]; simpl.
    + rewrite Z.eqb_refl, sum_count_absent; [lia | exact Hall].
    + rewrite Forall_forall in Hall. specialize (Hall _ Hin).
      unfold keys_increase in Hall. simpl in Hall.
      destruct (Z.eqb_spec z y); [lia |]. by rewrite IH.
Qed.

Lemma sum_count_present z counts :
  (1 <= sum_count z counts)%nat -> exists n, (z, n) ∈ counts.
Proof.
  induction counts as [|[y k] rest IH]; simpl; [lia |].
  destruct (Z.eqb_spec z y) as [->|Hne].
  - intros _. exists k. left.
  - intros H. destruct (IH H) as [n Hn]. exists n. by right.
Qed.

(** Every value is listed with the number of its occurrences, and only
    the values that occur are listed. *)
Lemma value_counts_occurrences s y n :
  (y, n) ∈ value_counts_sort_index s
  <-> n = occurrences y s /\ (1 <= n)%nat.
Proof.
  split.
  - intros Hin. split.
    + rewrite <- sum_count_value_counts.
      symmetry. apply sum_count_sorted; [apply value_counts_sorted | exact Hin].
    + pose proof (value_counts_positive s) as Hpos.
      rewrite Forall_forall in Hpos. exact (Hpos _ Hin).
  - intros [-> Hpos]. rewrite <- sum_count_value_counts in Hpos.
    destruct (sum_count_present _ _ Hpos) as [n Hn].
    rewrite <- (sum_count_value_counts y s).
    by rewrite (sum_count_sorted y n _ (value_counts_sorted s) Hn).
Qed.

Lemma apply_extract_year (tracks_df : list TrackRow) years :
  Forall2 released_in tracks_df years ->
  apply extract_year (map (fun t => Some (release_date t)) tracks_df)
  = Return (map Some years).
Proof.
  induction 1 as [|t y tracks ys (year & rest & Hlen & Hd & <- & Hdate) Hall IH];
    [done |].
  cbn [map apply]. rewrite IH.
  destruct (extract_year_year year rest Hlen Hd) as [H1 H2].
  destruct Hdate as [-> | ->]; [by rewrite H1 | by rewrite H2].
Qed.

Lemma omap_id_Some s : omap id (map Some s) = s.
Proof. induction s as [|y s IH]; [done |]. cbn. by rewrite IH. Qed.

End Counts.

(** X14: the releases per year of the analysis tab.  For a snapshot with
    tracks whose release dates are of the years [years], in one of the
    provider's precisions, [year_counts] lists the years by strictly
    increasing year; a year is listed with its number of tracks exactly
    when a track is of that year, and the numbers add up to the number of
    tracks. *)
Theorem year_counts_per_year (tracks_df : list TrackRow) (years : list Z) :
  tracks_df <> [] ->
  Forall2 released_in tracks_df years ->
  exists counts,
    year_counts tracks_df = Return counts
    /\ StronglySorted keys_increase counts
    /\ (forall y n, (y, n) ∈ counts <-> n = occurrences y years /\ (1 <= n)%nat)
    /\ sum_list (map snd counts) = length tracks_df.
Proof.
  intros Hne Hyears. exists (value_counts_sort_index years).
  split.
  - unfold year_counts. rewrite (apply_extract_year _ _ Hyears), omap_id_Some.
    by destruct tracks_df.
  - split; [apply value_counts_sorted |].
    split; [intros y n; apply value_counts_occurrences |].
    rewrite sum_list_value_counts. symmetry. exact (Forall2_length _ _ _ Hyears).
Qed.

Lemma year_counts_per_year_witness :
  Forall2 released_in sample_snapshot [2020; 2019; 2020]
  /\ year_counts sample_snapshot = Return [(2019, 1%nat); (2020, 2%nat)].
Proof.
  assert (Hyears : Forall2 released_in sample_snapshot [2020; 2019; 2020]).
  { repeat constructor.
    - exists "2020", "01-24". repeat split; by right.
    - exists "2019", "". repeat split; by left.
    - exists "2020", "11". repeat split; by right. }
  split; [exact Hyears |].
  destruct (year_counts_per_year sample_snapshot [2020; 2019; 2020])
    as (counts & Hrun & _); [discriminate | exact Hyears |].
  rewrite Hrun. vm_compute in Hrun. by injection Hrun as <-.
Defined.
